(** * Reconciliation engine of the OpenStack modules
      (os_project, os_user, os_role, os_router)

    The four modules are embedded as programs over the calls they make to
    the cloud client (shade's [cloud] object and the keystone client).  A
    program is a finite tree: it returns, raises, or issues one client call
    and continues with the client's reply.  A backend interprets the calls
    over a state; running a program yields the calls issued (in order), the
    value or exception it ends with, and the final backend state.

    Reading conventions for the source text:
    - [get_project] (os_project.py) filters with [x.id = name_or_id] and
      [ensure_user_exists] (os_user.py) tests with [&&]; neither is a
      Python operator, and they are read as [==] and [and].
    - the [cloud] / [keystone] first argument of every function is the
      implicit target of the calls of a program and is not passed around.
    - shade is taken to be importable ([HAS_SHADE] is true).  A [main]
      is modelled from the point where it has its module object; the
      construction of that object, which is Ansible's, is a parameter of
      the whole process (section "Building the module object").
    - a name that the file using it neither defines nor imports raises
      [NameError] where it is used, as in Python: [get_project] in
      os_role.py, [project_name] and [d] in os_project.py,
      [ensure_user_present] in os_user.py.  The two callees of [dispatch]
      that os_role.py does not define, [ensure_project_exists] and
      [ensure_project_absent], are parameters of [dispatch]. *)

From Stdlib Require Import String List Bool Arith Lia DecimalString.
Import ListNotations.
Open Scope string_scope.
Open Scope list_scope.

Set Implicit Arguments.

(** ** Python values *)

Definition opt_eqb (a b : option string) : bool :=
  match a, b with
  | Some x, Some y => String.eqb x y
  | None, None => true
  | _, _ => false
  end.

(** Truthiness of a parameter that is [None] or a string. *)
Definition truthy (o : option string) : bool :=
  match o with
  | Some s => negb (String.eqb s "")
  | None => false
  end.

(** The string held by a parameter (used under a [truthy] guard only). *)
Definition val (o : option string) : string :=
  match o with
  | Some s => s
  | None => ""
  end.

(** ["%d" % n] *)
Definition decimal (n : nat) : string :=
  NilEmpty.string_of_uint (Nat.to_uint n).

(** ** Resources, as the client returns them *)

Module Project.
Record t := mk
  { id : string; name : string; description : option string; enabled : bool }.
End Project.

Module User.
Record t := mk
  { id : string; name : string; email : option string; enabled : bool }.
End User.

Module Role.
Record t := mk { id : string; name : string }.
End Role.

Module Router.
Record t := mk { id : string; name : string; admin_state_up : bool }.
End Router.

(** Keyword arguments handed to [exit_json] / [fail_json], and the dict
    returned by [dispatch]. *)
Inductive jvalue :=
| JNone
| JBool (b : bool)
| JStr (s : string)
| JProject (p : Project.t)
| JUser (u : User.t).

Definition kwargs := list (string * jvalue).

Definition jopt {A} (f : A -> jvalue) (o : option A) : jvalue :=
  match o with
  | Some a => f a
  | None => JNone
  end.

(** ** Exceptions *)

Inductive exn :=
| OpenStackCloudException (message extra_data : string)
| KeyError (msg : string)
| ValueError (msg : string)
| NameError (name : string)
| AttributeError (msg : string)
| IndexError (msg : string)
| NotImplementedError (msg : string)
| SystemExit (failed : bool) (json : kwargs).

(** ** Client calls *)

Inductive cmd :=
| openstack_cloud
| cloud_get_project (name_or_id : string)
| cloud_create_project (name : string) (description : option string)
                       (enabled : bool)
| cloud_update_project (id : string) (description : option string)
                       (enabled : bool)
| cloud_delete_project (id : string)
| cloud_get_user (name_or_id : string)
| cloud_create_user (name : string) (password email project : option string)
                    (enabled : bool)
| cloud_update_user (name_or_id : string) (email : option string)
                    (enabled : bool)
| cloud_delete_user (id : string)
| cloud_get_router (name_or_id : string)
| cloud_create_router (name : string) (admin_state_up : bool)
| cloud_delete_router (name_or_id : string)
| keystone_projects_list
| keystone_users_list
| keystone_users_create (name : string) (password email : option string)
                        (project_id : string)
| keystone_roles_list
| keystone_roles_roles_for_user (user : User.t) (project : option Project.t)
| keystone_roles_create (name : string)
| keystone_roles_add_user_role (user : User.t) (role : Role.t)
                               (project : option Project.t).

(** What a successful call returns. *)
Definition resp (c : cmd) : Type :=
  match c with
  | openstack_cloud => unit
  | cloud_get_project _ => option Project.t
  | cloud_create_project _ _ _ => Project.t
  | cloud_update_project _ _ _ => Project.t
  | cloud_delete_project _ => unit
  | cloud_get_user _ => option User.t
  | cloud_create_user _ _ _ _ _ => User.t
  | cloud_update_user _ _ _ => User.t
  | cloud_delete_user _ => unit
  | cloud_get_router _ => option Router.t
  | cloud_create_router _ _ => Router.t
  | cloud_delete_router _ => unit
  | keystone_projects_list => list Project.t
  | keystone_users_list => list User.t
  | keystone_users_create _ _ _ _ => User.t
  | keystone_roles_list => list Role.t
  | keystone_roles_roles_for_user _ _ => list Role.t
  | keystone_roles_create _ => Role.t
  | keystone_roles_add_user_role _ _ _ => unit
  end.

(** The calls that create, update or delete something. *)
Definition mutating (c : cmd) : bool :=
  match c with
  | cloud_create_project _ _ _ | cloud_update_project _ _ _
  | cloud_delete_project _
  | cloud_create_user _ _ _ _ _ | cloud_update_user _ _ _
  | cloud_delete_user _
  | cloud_create_router _ _ | cloud_delete_router _
  | keystone_users_create _ _ _ _
  | keystone_roles_create _ | keystone_roles_add_user_role _ _ _ => true
  | _ => false
  end.

(** A call either fails in the backend (the client raises its one failure
    class, with a message and extra data) or replies. *)
Inductive reply (R : Type) :=
| Fail (message extra_data : string)
| Reply (r : R).
Arguments Fail {R} _ _.

(** ** Programs *)

Inductive Prog (A : Type) : Type :=
| Ret (a : A)
| Raise (e : exn)
| Call (c : cmd) (k : reply (resp c) -> Prog A).
Arguments Raise {A} _.

Fixpoint bind {A B} (p : Prog A) (f : A -> Prog B) : Prog B :=
  match p with
  | Ret a => f a
  | Raise e => Raise e
  | Call c k => Call c (fun r => bind (k r) f)
  end.

Notation "x <- p ;; q" := (bind p (fun x => q))
  (at level 61, p at next level, right associativity).
Notation "p ;;; q" := (bind p (fun _ => q))
  (at level 61, right associativity).

(** One client call; a backend failure surfaces as the client's exception. *)
Definition call (c : cmd) : Prog (resp c) :=
  Call c (fun r =>
    match r with
    | Fail m x => Raise (OpenStackCloudException m x)
    | Reply v => Ret v
    end).

(** The client objects: [shade.openstack_cloud(...)], the [cloud] methods
    and the keystone client's managers. *)
Module shade.
Definition openstack_cloud : Prog unit := call openstack_cloud.
End shade.

Module cloud.
Definition get_project (name_or_id : string) : Prog (option Project.t) :=
  call (cloud_get_project name_or_id).
Definition create_project (name : string) (description : option string)
           (enabled : bool) : Prog Project.t :=
  call (cloud_create_project name description enabled).
Definition update_project (id : string) (description : option string)
           (enabled : bool) : Prog Project.t :=
  call (cloud_update_project id description enabled).
Definition delete_project (id : string) : Prog unit :=
  call (cloud_delete_project id).
Definition get_user (name_or_id : string) : Prog (option User.t) :=
  call (cloud_get_user name_or_id).
Definition create_user (name : string)
           (password email project : option string) (enabled : bool)
  : Prog User.t :=
  call (cloud_create_user name password email project enabled).
Definition update_user (name_or_id : string) (email : option string)
           (enabled : bool) : Prog User.t :=
  call (cloud_update_user name_or_id email enabled).
Definition get_router (name_or_id : string) : Prog (option Router.t) :=
  call (cloud_get_router name_or_id).
Definition create_router (name : string) (admin_state_up : bool)
  : Prog Router.t :=
  call (cloud_create_router name admin_state_up).
Definition delete_router (name_or_id : string) : Prog unit :=
  call (cloud_delete_router name_or_id).
End cloud.

Module keystone.
Definition projects_list : Prog (list Project.t) :=
  call keystone_projects_list.
Definition users_list : Prog (list User.t) := call keystone_users_list.
Definition users_create (name : string) (password email : option string)
           (project_id : string) : Prog User.t :=
  call (keystone_users_create name password email project_id).
Definition roles_list : Prog (list Role.t) := call keystone_roles_list.
Definition roles_for_user (user : User.t) (project : option Project.t)
  : Prog (list Role.t) :=
  call (keystone_roles_roles_for_user user project).
Definition roles_create (name : string) : Prog Role.t :=
  call (keystone_roles_create name).
Definition add_user_role (user : User.t) (role : Role.t)
           (project : option Project.t) : Prog unit :=
  call (keystone_roles_add_user_role user role project).
End keystone.

(** [try: p / except <h>: ... / else: k]: [h] says which exceptions are
    caught and what runs then; [k] runs when [p] raised nothing and is not
    itself protected. *)
Fixpoint try_except_else {A B} (p : Prog A) (h : exn -> option (Prog B))
         (k : A -> Prog B) : Prog B :=
  match p with
  | Ret a => k a
  | Raise e => match h e with
               | Some q => q
               | None => Raise e
               end
  | Call c f => Call c (fun r => try_except_else (f r) h k)
  end.

(** ** Backends and runs *)

Record Backend := mkBackend
  { state : Type;
    handle : forall c : cmd, state -> reply (resp c) * state }.

Record Run (A S : Type) := mkRun
  { trace : list cmd; outcome : A + exn; final : S }.

Fixpoint run {A} (B : Backend) (p : Prog A) (s : state B)
  : Run A (state B) :=
  match p with
  | Ret a => mkRun [] (inl a) s
  | Raise e => mkRun [] (inr e) s
  | Call c k =>
      let (r, s') := handle B c s in
      let R := run B (k r) s' in
      mkRun (c :: trace R) (outcome R) (final R)
  end.

(** Number of mutating calls of a trace. *)
Definition mutations (tr : list cmd) : nat :=
  length (filter mutating tr).

(** The calls that look resources up. *)
Definition is_lookup (c : cmd) : bool :=
  match c with
  | cloud_get_project _ | cloud_get_user _ | cloud_get_router _
  | keystone_projects_list | keystone_users_list | keystone_roles_list
  | keystone_roles_roles_for_user _ _ => true
  | _ => false
  end.

(** No mutating call is issued before the first lookup. *)
Fixpoint lookup_precedes (tr : list cmd) : bool :=
  match tr with
  | [] => true
  | c :: tr' =>
      if is_lookup c then true else negb (mutating c) && lookup_precedes tr'
  end.


(** ** The Ansible module object *)

Record AnsibleModule (P : Type) := mkModule
  { params : P; check_mode : bool }.

(** [exit_json] and [fail_json] end the process with the given output. *)
Definition exit_json (kw : kwargs) : Prog unit :=
  Raise (SystemExit false kw).
Definition fail_json (kw : kwargs) : Prog unit :=
  Raise (SystemExit true kw).

(** [except shade.OpenStackCloudException as e: h e.message e.extra_data] *)
Definition except_cloud {B} (h : string -> string -> Prog B)
  : exn -> option (Prog B) :=
  fun e => match e with
           | OpenStackCloudException m x => Some (h m x)
           | _ => None
           end.

(** ** os_router.py *)

Module os_router.

Record params_t := mkParams
  { name : string; admin_state_up : bool; state : string }.

Definition main (module : AnsibleModule params_t) : Prog unit :=
  let name := name (params module) in
  let admin_state_up := admin_state_up (params module) in
  let state := state (params module) in
  try_except_else
    (shade.openstack_cloud ;;;
     router <- cloud.get_router name ;;
     if state =? "present" then
       match router with
       | None =>
           router <- cloud.create_router name admin_state_up ;;
           exit_json [("changed", JBool true); ("result", JStr "Created");
                      ("id", JStr (Router.id router))]
       | Some router =>
           exit_json [("changed", JBool false); ("result", JStr "Success");
                      ("id", JStr (Router.id router))]
       end
     else if state =? "absent" then
       match router with
       | None =>
           exit_json [("changed", JBool false); ("result", JStr "Success")]
       | Some _ =>
           cloud.delete_router name ;;;
           exit_json [("changed", JBool true); ("result", JStr "Deleted")]
       end
     else Ret tt)
    (except_cloud (fun message _ => fail_json [("msg", JStr message)]))
    (fun _ => Ret tt).

End os_router.

(** ** os_project.py *)

Module os_project.

(** Retrieve a project by name or id. *)
Definition get_project (name_or_id : string) : Prog (option Project.t) :=
  l <- keystone.projects_list ;;
  let projects :=
    filter (fun x => (Project.id x =? name_or_id)
                     || (Project.name x =? name_or_id)) l in
  match projects with
  | x :: _ => Ret (Some x)
  | [] => Ret None
  end.

Definition ensure_project_exists (name : string)
           (description : option string) (enabled check_mode : bool)
  : Prog (bool * option Project.t) :=
  project <- cloud.get_project name ;;
  match project with
  | Some project =>
      if negb (opt_eqb (Project.description project) description)
         || negb (Bool.eqb (Project.enabled project) enabled)
      then
        if negb check_mode then
          project <- cloud.update_project (Project.id project)
                                          description enabled ;;
          Ret (true, Some project)
        else Ret (true, Some project)
      else Ret (false, Some project)
  | None =>
      if check_mode then Ret (true, None)
      else
        ks_project <- cloud.create_project name description enabled ;;
        Ret (true, Some ks_project)
  end.

Section Globals.
(** [ensure_project_absent] looks the project up under the name
    [project_name], which is not one of its parameters: it is read from
    the module's globals.  [None] stands for "not bound". *)
Variable project_name : option string.

Definition ensure_project_absent (name : string) (check_mode : bool)
  : Prog bool :=
  match project_name with
  | None => Raise (NameError "project_name")
  | Some project_name =>
      project <- cloud.get_project project_name ;;
      match project with
      | None => Ret false
      | Some project =>
          if check_mode then Ret true
          else
            cloud.delete_project (Project.id project) ;;;
            Ret true
      end
  end.

Record params_t := mkParams
  { project : string; description : option string; state : string;
    enabled : bool }.

Definition main (module : AnsibleModule params_t) : Prog unit :=
  let project := project (params module) in
  let description := description (params module) in
  let state := state (params module) in
  let enabled := enabled (params module) in
  let check_mode := check_mode module in
  try_except_else
    (shade.openstack_cloud ;;;
     if state =? "present" then
       r <- ensure_project_exists project description enabled
                                  check_mode ;;
       let (changed, project_obj) := r in
       exit_json [("changed", JBool changed);
                  ("project", jopt JProject project_obj)]
     else if state =? "absent" then
       changed <- ensure_project_absent project check_mode ;;
       exit_json [("changed", JBool changed)]
     else Ret tt)
    (except_cloud (fun message extra_data =>
       if check_mode then
         exit_json [("changed", JBool true); ("msg", JStr message);
                    ("extra_data", JStr extra_data)]
       else
         fail_json [("msg", JStr message);
                    ("extra_dtata", JStr extra_data)]))
    (fun _ => Raise (NameError "d")).
End Globals.

(** os_project.py binds no [project_name] at module level. *)
Definition module_project_name : option string := None.

End os_project.

(** ** os_user.py *)

Module os_user.

Definition ensure_user_exists (name : string)
           (password email project : option string)
           (enabled check_mode : bool) : Prog (bool * option User.t) :=
  user <- cloud.get_user name ;;
  match user with
  | Some user =>
      if Bool.eqb (User.enabled user) enabled
         && opt_eqb (User.email user) email
      then Ret (false, Some user)
      else if check_mode then Ret (true, Some user)
      else
        user <- cloud.update_user (User.id user) email enabled ;;
        Ret (true, Some user)
  | None =>
      if check_mode then Ret (true, None)
      else
        user <- cloud.create_user name password email project enabled ;;
        Ret (true, Some user)
  end.

Definition ensure_user_absent (name_or_id : string) (check_mode : bool)
  : Prog bool :=
  user <- cloud.get_user name_or_id ;;
  match user with
  | None => Ret false
  | Some user =>
      if check_mode then Ret true
      else
        cloud.delete_project (User.id user) ;;;
        Ret true
  end.

Record params_t := mkParams
  { name : string; email : option string; project : option string;
    password : option string; enabled : bool; state : string }.

(** [main] calls [ensure_user_present], a name nothing defines. *)
Definition main (module : AnsibleModule params_t) : Prog unit :=
  let name := name (params module) in
  let state := state (params module) in
  let check_mode := check_mode module in
  try_except_else
    (shade.openstack_cloud ;;;
     if state =? "present" then
       Raise (NameError "ensure_user_present")
     else
       changed <- ensure_user_absent name check_mode ;;
       exit_json [("changed", JBool changed)])
    (except_cloud (fun message extra_data =>
       if check_mode then
         exit_json [("changed", JBool true); ("msg", JStr message);
                    ("extra_data", JStr extra_data)]
       else
         fail_json [("msg", JStr message);
                    ("extra_dtata", JStr extra_data)]))
    (fun _ => Raise (NameError "d")).

End os_user.

(** ** os_role.py *)

Module os_role.

(** [l[0]] *)
Definition index0 {A} (l : list A) : Prog A :=
  match l with
  | x :: _ => Ret x
  | [] => Raise (IndexError "list index out of range")
  end.

(** [o.id] where [o] may be [None]. *)
Definition project_id_of (o : option Project.t) : Prog string :=
  match o with
  | Some p => Ret (Project.id p)
  | None => Raise (AttributeError
                     "'NoneType' object has no attribute 'id'")
  end.

(** os_role.py calls [get_project] and neither defines nor imports it. *)
Definition get_project (name : string) : Prog (option Project.t) :=
  Raise (NameError "get_project").

(** Return True if user already exists. *)
Definition user_exists (user : string) : Prog bool :=
  l <- keystone.users_list ;;
  Ret (existsb (String.eqb user) (map User.name l)).

(** Retrieve a user by name. *)
Definition get_user (name : string) : Prog User.t :=
  l <- keystone.users_list ;;
  let users := filter (fun x => User.name x =? name) l in
  let count := length users in
  if Nat.eqb count 0 then
    Raise (KeyError ("No keystone users with name " ++ name))
  else if Nat.ltb 1 count then
    Raise (ValueError (decimal count ++ " users with name " ++ name))
  else index0 users.

(** Retrieve a role by name. *)
Definition get_role (name : string) : Prog Role.t :=
  l <- keystone.roles_list ;;
  let roles := filter (fun x => Role.name x =? name) l in
  let count := length roles in
  if Nat.eqb count 0 then
    Raise (KeyError ("No keystone roles with name " ++ name))
  else if Nat.ltb 1 count then
    Raise (ValueError (decimal count ++ " roles with name " ++ name))
  else index0 roles.

Definition get_project_id (name : string) : Prog string :=
  p <- get_project name ;; project_id_of p.

Definition get_user_id (name : string) : Prog string :=
  u <- get_user name ;; Ret (User.id u).

Definition except_KeyError {B} (q : Prog B) : exn -> option (Prog B) :=
  fun e => match e with
           | KeyError _ => Some q
           | _ => None
           end.

Definition ensure_user_exists (user_name : string)
           (password email : option string) (project_name : string)
           (check_mode : bool) : Prog (bool * option string) :=
  try_except_else (get_user user_name)
    (except_KeyError
       (if check_mode then Ret (true, None)
        else
          project <- get_project project_name ;;
          project_id <- project_id_of project ;;
          user <- keystone.users_create user_name password email
                                        project_id ;;
          Ret (true, Some (User.id user))))
    (fun user => Ret (false, Some (User.id user))).

Definition ensure_role_exists (user_name project_name role_name : string)
           (check_mode : bool) : Prog (bool * option string) :=
  user <- get_user user_name ;;
  project <- get_project project_name ;;
  l <- keystone.roles_for_user user project ;;
  let roles := filter (fun x => Role.name x =? role_name) l in
  let count := length roles in
  if Nat.eqb count 1 then
    role <- index0 roles ;;
    Ret (false, Some (Role.id role))
  else if Nat.ltb 1 count then
    Raise (ValueError (decimal count ++ " roles with name " ++ role_name))
  else if check_mode then Ret (true, None)
  else
    role <- try_except_else (get_role role_name)
              (except_KeyError (keystone.roles_create role_name))
              (fun role => Ret role) ;;
    keystone.add_user_role user role project ;;;
    Ret (true, Some (Role.id role)).

Definition ensure_user_absent (user : string) (check_mode : bool)
  : Prog bool :=
  Raise (NotImplementedError "Not yet implemented").

Definition ensure_role_absent (uesr project role : string)
           (check_mode : bool) : Prog bool :=
  Raise (NotImplementedError "Not yet implemented").

Section Dispatch.
(** The two callees os_role.py does not define, with the arguments
    [dispatch] passes them. *)
Variable ensure_project_exists :
  string -> option string -> bool -> Prog (bool * option string).
Variable ensure_project_absent : string -> bool -> Prog bool.

(** Returns the dict that is passed to [exit_json].  The connection
    parameters (endpoint, token, login_user, login_password) are not
    used by the body and are left out. *)
Definition dispatch (user password project project_description email
                     role : option string) (state : string)
           (check_mode : bool) : Prog kwargs :=
  let id : option string := None in
  r <- (if truthy project && negb (truthy user) && negb (truthy role)
           && (state =? "present") then
          ensure_project_exists (val project) project_description
                                check_mode
        else if truthy project && negb (truthy user)
                && negb (truthy role) && (state =? "absent") then
          changed <- ensure_project_absent (val project) check_mode ;;
          Ret (changed, id)
        else if truthy project && truthy user && negb (truthy role)
                && (state =? "present") then
          ensure_user_exists (val user) password email (val project)
                             check_mode
        else if truthy project && truthy user && negb (truthy role)
                && (state =? "absent") then
          changed <- ensure_user_absent (val user) check_mode ;;
          Ret (changed, id)
        else if truthy project && truthy user && truthy role
                && (state =? "present") then
          ensure_role_exists (val user) (val project) (val role)
                             check_mode
        else if truthy project && truthy user && truthy role
                && (state =? "absent") then
          changed <- ensure_role_absent (val user) (val project)
                                        (val role) check_mode ;;
          Ret (changed, id)
        else
          Raise (ValueError "Code should never reach here")) ;;
  let (changed, id) := r in
  Ret [("changed", JBool changed); ("id", jopt JStr id)].
End Dispatch.

Record params_t := mkParams
  { name : string; user : option string; project : option string;
    domain : option string; state : string }.

(** [main] only opens the session; on success it reaches the [else]
    clause, which reads [d], and nothing defines [d]. *)
Definition main (module : AnsibleModule params_t) : Prog unit :=
  let check_mode := check_mode module in
  try_except_else shade.openstack_cloud
    (except_cloud (fun message extra_data =>
       if check_mode then
         exit_json [("changed", JBool true); ("msg", JStr message);
                    ("extra_data", JStr extra_data)]
       else
         fail_json [("msg", JStr message);
                    ("extra_dtata", JStr extra_data)]))
    (fun _ => Raise (NameError "d")).

End os_role.

(** ** A reference backend *)

(** Modelled from the spec: the cloud behind the client, which is not part
    of the repository (spec section 6: list, get, create, update and delete
    per kind; role listing, role creation and role assignment).  Resources
    are kept in creation order, [get_<kind>] is the lookup of section 4.1
    over the listing, and a create gives the new resource the attributes it
    was handed and an id made from a counter. *)
Module RefCloud.

Record stored_user := mkStored
  { su_user : User.t; su_password : option string;
    su_project : option string }.

(** A grant is (user id, role id, project id). *)
Record t := mk
  { projects : list Project.t;
    users : list stored_user;
    roles : list Role.t;
    grants : list (string * string * string);
    routers : list Router.t;
    next_id : nat }.

Definition empty : t := mk [] [] [] [] [] 0.

Definition fresh (s : t) : string := "id-" ++ decimal (next_id s).

Definition matches {A} (id name : A -> string) (name_or_id : string)
           (x : A) : bool :=
  (id x =? name_or_id) || (name x =? name_or_id).

Definition lookup {A} (id name : A -> string) (l : list A)
           (name_or_id : string) : reply (option A) :=
  match filter (matches id name name_or_id) l with
  | [] => Reply None
  | [x] => Reply (Some x)
  | _ => Fail "Multiple matches found" name_or_id
  end.

Definition user_id (u : stored_user) := User.id (su_user u).
Definition user_name (u : stored_user) := User.name (su_user u).

Definition set_projects (s : t) l :=
  mk l (users s) (roles s) (grants s) (routers s) (next_id s).
Definition set_users (s : t) l :=
  mk (projects s) l (roles s) (grants s) (routers s) (next_id s).
Definition set_roles (s : t) l :=
  mk (projects s) (users s) l (grants s) (routers s) (next_id s).
Definition set_grants (s : t) l :=
  mk (projects s) (users s) (roles s) l (routers s) (next_id s).
Definition set_routers (s : t) l :=
  mk (projects s) (users s) (roles s) (grants s) l (next_id s).
Definition tick (s : t) :=
  mk (projects s) (users s) (roles s) (grants s) (routers s)
     (S (next_id s)).

Definition granted (s : t) (u : User.t) (p : Project.t) (r : Role.t)
  : bool :=
  existsb (fun g => match g with
                    | (uid, rid, pid) =>
                        (uid =? User.id u) && (rid =? Role.id r)
                        && (pid =? Project.id p)
                    end) (grants s).

Definition handle (c : cmd) (s : t) : reply (resp c) * t :=
  match c as c0 return reply (resp c0) * t with
  | openstack_cloud => (Reply tt, s)
  | cloud_get_project n =>
      (lookup Project.id Project.name (projects s) n, s)
  | cloud_create_project n d e =>
      let p := Project.mk (fresh s) n d e in
      (Reply p, tick (set_projects s (projects s ++ [p])))
  | cloud_update_project i d e =>
      match find (fun x => Project.id x =? i) (projects s) with
      | None => (Fail "Project not found" i, s)
      | Some p =>
          let upd x := Project.mk (Project.id x) (Project.name x) d e in
          (Reply (upd p),
           set_projects s
             (map (fun x => if Project.id x =? i then upd x else x)
                  (projects s)))
      end
  | cloud_delete_project i =>
      (Reply tt,
       set_projects s
         (filter (fun x => negb (Project.id x =? i)) (projects s)))
  | cloud_get_user n =>
      (lookup User.id User.name (map su_user (users s)) n, s)
  | cloud_create_user n pw em pr e =>
      let u := User.mk (fresh s) n em e in
      (Reply u, tick (set_users s (users s ++ [mkStored u pw pr])))
  | cloud_update_user n em e =>
      match find (matches user_id user_name n) (users s) with
      | None => (Fail "User not found" n, s)
      | Some u =>
          let upd x := mkStored (User.mk (user_id x) (user_name x) em e)
                                (su_password x) (su_project x) in
          (Reply (su_user (upd u)),
           set_users s
             (map (fun x => if user_id x =? user_id u then upd x else x)
                  (users s)))
      end
  | cloud_delete_user i =>
      (Reply tt,
       set_users s (filter (fun x => negb (user_id x =? i)) (users s)))
  | cloud_get_router n =>
      (lookup Router.id Router.name (routers s) n, s)
  | cloud_create_router n a =>
      let r := Router.mk (fresh s) n a in
      (Reply r, tick (set_routers s (routers s ++ [r])))
  | cloud_delete_router n =>
      (Reply tt,
       set_routers s
         (filter (fun x => negb (matches Router.id Router.name n x))
                 (routers s)))
  | keystone_projects_list => (Reply (projects s), s)
  | keystone_users_list => (Reply (map su_user (users s)), s)
  | keystone_users_create n pw em pid =>
      let u := User.mk (fresh s) n em true in
      (Reply u, tick (set_users s (users s ++ [mkStored u pw (Some pid)])))
  | keystone_roles_list => (Reply (roles s), s)
  | keystone_roles_roles_for_user u p =>
      match p with
      | None => (Fail "Project not found" "", s)
      | Some p => (Reply (filter (granted s u p) (roles s)), s)
      end
  | keystone_roles_create n =>
      let r := Role.mk (fresh s) n in
      (Reply r, tick (set_roles s (roles s ++ [r])))
  | keystone_roles_add_user_role u r p =>
      match p with
      | None => (Fail "Project not found" "", s)
      | Some p =>
          (Reply tt,
           set_grants s
             (grants s ++ [(User.id u, Role.id r, Project.id p)]))
      end
  end.

Definition backend : Backend := mkBackend handle.

End RefCloud.

(** ** Building the module object *)

(** Every [main] first builds its module object: it calls [AnsibleModule]
    on its argument spec and on the keyword arguments that
    [openstack_module_kwargs], called without arguments, returns.  Both
    functions are Ansible's, not the repository's, so the construction is
    a parameter: [new_module params check_mode] builds the object of a run
    that was given [params] and asked for check mode or not. *)
Section Process.
Variable new_module : forall P : Type, P -> bool -> Prog (AnsibleModule P).

End Process.




(** ** Notions used by the statements *)


(** A cloud with one project, one user, one role and one router (whose
    admin_state_up is false), and no grant. *)
Definition demo_cloud : RefCloud.t :=
  RefCloud.mk
    [Project.mk "p1" "demo" (Some "Default Tenant") true]
    [RefCloud.mkStored (User.mk "u1" "john" None true) (Some "secrete")
                       (Some "p1")]
    [Role.mk "r1" "admin"]
    [] [Router.mk "n1" "router1" false] 7.

(** A lookup comes before any mutating call, and there are at most [n]
    mutating calls. *)
Definition ordered_within (n : nat) (tr : list cmd) : Prop :=
  lookup_precedes tr = true /\ mutations tr <= n.


(** A cloud in which two projects and two routers share a name. *)
Definition twin_cloud : RefCloud.t :=
  RefCloud.mk
    [Project.mk "p1" "demo" None true; Project.mk "p2" "demo" None true]
    [] [] []
    [Router.mk "n1" "router1" true; Router.mk "n2" "router1" true] 7.

Definition router1_module (admin_state_up : bool) (state : string)
           (check_mode : bool) : AnsibleModule os_router.params_t :=
  mkModule (os_router.mkParams "router1" admin_state_up state) check_mode.

Definition demo_module (state : string) (check_mode : bool)
  : AnsibleModule os_project.params_t :=
  mkModule (os_project.mkParams "demo" (Some "Default Tenant") state true)
           check_mode.

(** What the [except] clause of os_project, os_user and os_role ends the
    process with: a changed=True report in check mode, a failure
    otherwise (whose extra data go under the key [extra_dtata]). *)
Definition lenient (check_mode : bool) (m x : string) : exn :=
  if check_mode then
    SystemExit false [("changed", JBool true); ("msg", JStr m);
                      ("extra_data", JStr x)]
  else
    SystemExit true [("msg", JStr m); ("extra_dtata", JStr x)].

(** The precedence table of the dispatcher as the specification gives it,
    row by row: which of project, user and role are supplied (non-empty),
    and the state.  It is compared with the [if]/[elif] chain of
    [os_role.dispatch]. *)
Definition table : list (bool * bool * bool * string) :=
  [ (true, false, false, "present");
    (true, false, false, "absent");
    (true, true, false, "present");
    (true, true, false, "absent");
    (true, true, true, "present");
    (true, true, true, "absent") ].

Definition in_table (project user role : option string) (state : string)
  : bool :=
  existsb (fun row => match row with
                      | (p, u, r, st) =>
                          Bool.eqb (truthy project) p
                          && Bool.eqb (truthy user) u
                          && Bool.eqb (truthy role) r
                          && (state =? st)
                      end) table.

(** A cloud in which john holds two roles named admin in demo. *)
Definition two_admins_cloud : RefCloud.t :=
  RefCloud.mk
    [Project.mk "p1" "demo" (Some "Default Tenant") true]
    [RefCloud.mkStored (User.mk "u1" "john" None true) (Some "secrete")
                       (Some "p1")]
    [Role.mk "r1" "admin"; Role.mk "r2" "admin"]
    [("u1", "r1", "p1"); ("u1", "r2", "p1")] [] 7.

(** A cloud with the project demo and the role admin, and no user. *)
Definition no_user_cloud : RefCloud.t :=
  RefCloud.mk [Project.mk "p1" "demo" (Some "Default Tenant") true] []
              [Role.mk "r1" "admin"] [] [] 7.

(** * Properties *)

(** ** Runs in general *)

Section Runs.
Variable B : Backend.

Lemma run_bind A C (p : Prog A) (f : A -> Prog C) (s : state B) :
  run B (bind p f) s =
  match outcome (run B p s) with
  | inl a =>
      let R' := run B (f a) (final (run B p s)) in
      mkRun (trace (run B p s) ++ trace R') (outcome R') (final R')
  | inr e => mkRun (trace (run B p s)) (inr e) (final (run B p s))
  end.
Proof.
  revert s; induction p as [a | e | c k IH]; intros s; simpl.
  - destruct (run B (f a) s); reflexivity.
  - reflexivity.
  - destruct (handle B c s) as [r s']; simpl.
    rewrite IH.
    destruct (outcome (run B (k r) s')); reflexivity.
Qed.


Lemma mutations_app tr1 tr2 :
  mutations (tr1 ++ tr2) = mutations tr1 + mutations tr2.
Proof.
  unfold mutations; rewrite filter_app, length_app; reflexivity.
Qed.

End Runs.

(** Case analysis on whatever the backend replies and on the tests the
    program makes on the replies. *)
Ltac run_case :=
  match goal with
  | |- context [handle ?B ?c ?s] =>
      destruct (handle B c s) as [[? ?|?] ?]
  | |- context [match ?x with Some _ => _ | None => _ end] => destruct x
  | |- context [if ?b then _ else _] => destruct b
  | |- context [match ?l with [] => _ | _ :: _ => _ end] => destruct l
  end.

Ltac run_cases := cbn; repeat (run_case; cbn).


(** ** Check mode *)


Section CheckMode.
Variable B : Backend.
Variable s : state B.






End CheckMode.

Section CheckModeMain.
Variable B : Backend.
Variable s : state B.



End CheckModeMain.




(** ** Order and number of the calls of one invocation *)

Ltac trace_ok :=
  unfold ordered_within; split; [reflexivity | unfold mutations; cbn; lia].

Section Ordering.
Variable B : Backend.
Variable s : state B.

Lemma project_exists_ordered name description enabled check_mode :
  ordered_within 1
    (trace (run B (os_project.ensure_project_exists
                     name description enabled check_mode) s)).
Proof.
  unfold os_project.ensure_project_exists, cloud.get_project,
    cloud.update_project, cloud.create_project.
  run_cases; trace_ok.
Qed.

Lemma project_absent_ordered project_name name check_mode :
  ordered_within 1
    (trace (run B (os_project.ensure_project_absent
                     project_name name check_mode) s)).
Proof.
  unfold os_project.ensure_project_absent, cloud.get_project,
    cloud.delete_project.
  destruct project_name; run_cases; trace_ok.
Qed.

Lemma user_exists_ordered name password email project enabled check_mode :
  ordered_within 1
    (trace (run B (os_user.ensure_user_exists
                     name password email project enabled check_mode) s)).
Proof.
  unfold os_user.ensure_user_exists, cloud.get_user, cloud.update_user,
    cloud.create_user.
  run_cases; trace_ok.
Qed.

Lemma user_absent_ordered name_or_id check_mode :
  ordered_within 1
    (trace (run B (os_user.ensure_user_absent name_or_id check_mode) s)).
Proof.
  unfold os_user.ensure_user_absent, cloud.get_user, cloud.delete_project.
  run_cases; trace_ok.
Qed.

Lemma router_main_ordered module :
  ordered_within 1 (trace (run B (os_router.main module) s)).
Proof.
  unfold os_router.main, shade.openstack_cloud, cloud.get_router,
    cloud.create_router, cloud.delete_router.
  run_cases; trace_ok.
Qed.

Lemma role_user_exists_ordered user_name password email project_name
      check_mode :
  ordered_within 1
    (trace (run B (os_role.ensure_user_exists
                     user_name password email project_name check_mode)
                  s)).
Proof.
  unfold os_role.ensure_user_exists, os_role.get_user, os_role.index0,
    os_role.get_project, os_project.get_project, os_role.project_id_of,
    keystone.users_list, keystone.projects_list, keystone.users_create.
  run_cases; trace_ok.
Qed.

Lemma role_exists_ordered user_name project_name role_name check_mode :
  ordered_within 1
    (trace (run B (os_role.ensure_role_exists
                     user_name project_name role_name check_mode) s)).
Proof.
  unfold os_role.ensure_role_exists, os_role.get_user, os_role.get_role,
    os_role.index0, os_role.get_project, os_project.get_project,
    keystone.users_list, keystone.projects_list, keystone.roles_for_user,
    keystone.roles_list, keystone.roles_create, keystone.add_user_role.
  run_cases; trace_ok.
Qed.
End Ordering.

(** C6.  In every invocation of a convergence function (Project, User,
    RoleAssignment, Router), whatever the input and whatever the backend
    replies, no mutating call is issued before a lookup and at most one
    mutating call is issued. *)
Theorem lookup_then_bounded_mutations (B : Backend) (s : state B) :
  (forall name description enabled check_mode,
      ordered_within 1
        (trace (run B (os_project.ensure_project_exists
                         name description enabled check_mode) s)))
  /\ (forall project_name name check_mode,
         ordered_within 1
           (trace (run B (os_project.ensure_project_absent
                            project_name name check_mode) s)))
  /\ (forall name password email project enabled check_mode,
         ordered_within 1
           (trace (run B (os_user.ensure_user_exists
                            name password email project enabled check_mode)
                         s)))
  /\ (forall name_or_id check_mode,
         ordered_within 1
           (trace (run B (os_user.ensure_user_absent name_or_id check_mode)
                         s)))
  /\ (forall module,
         ordered_within 1 (trace (run B (os_router.main module) s)))
  /\ (forall user_name password email project_name check_mode,
         ordered_within 1
           (trace (run B (os_role.ensure_user_exists
                            user_name password email project_name
                            check_mode) s)))
  /\ (forall user_name project_name role_name check_mode,
         ordered_within 1
           (trace (run B (os_role.ensure_role_exists
                            user_name project_name role_name check_mode)
                         s))).
Proof.
  repeat apply conj; intros.
  - apply project_exists_ordered.
  - apply project_absent_ordered.
  - apply user_exists_ordered.
  - apply user_absent_ordered.
  - apply router_main_ordered.
  - apply role_user_exists_ordered.
  - apply role_exists_ordered.
Qed.

(** ** The Router module on an existing router *)

(** C4 (amended).  When a router of the requested name exists and the
    state is present, the Router module reports changed=false with the id
    of the existing router and issues no call after the lookup, whatever
    the desired admin_state_up: an existing router is never updated. *)
Theorem router_present_existing_untouched (B : Backend) (s s1 s2 : state B)
        (name : string) (admin_state_up check_mode : bool) (r : Router.t) :
  handle B openstack_cloud s = (Reply tt, s1) ->
  handle B (cloud_get_router name) s1 = (Reply (Some r), s2) ->
  run B (os_router.main
           (mkModule (os_router.mkParams name admin_state_up "present")
                     check_mode)) s
  = mkRun [openstack_cloud; cloud_get_router name]
          (inr (SystemExit false
                  [("changed", JBool false); ("result", JStr "Success");
                   ("id", JStr (Router.id r))]))
          s2.
Proof.
  intros H1 H2.
  unfold os_router.main, shade.openstack_cloud, cloud.get_router; cbn.
  rewrite H1; cbn.
  rewrite H2; cbn.
  reflexivity.
Qed.

Lemma router_present_existing_untouched_witness :
  run RefCloud.backend (os_router.main (router1_module true "present" false))
      demo_cloud
  = mkRun [openstack_cloud; cloud_get_router "router1"]
          (inr (SystemExit false
                  [("changed", JBool false); ("result", JStr "Success");
                   ("id", JStr "n1")]))
          demo_cloud.
Proof.
  apply (@router_present_existing_untouched RefCloud.backend demo_cloud
           demo_cloud demo_cloud "router1" true false
           (Router.mk "n1" "router1" false));
    reflexivity.
Defined.

(** C4, counterexample.  router1 exists with admin_state_up=false; asking
    for admin_state_up=true, state present, outside check mode, reports
    changed=false and leaves the router with admin_state_up=false. *)
Lemma router_divergent_not_updated :
  let R := run RefCloud.backend
               (os_router.main (router1_module true "present" false))
               demo_cloud in
  RefCloud.routers demo_cloud = [Router.mk "n1" "router1" false]
  /\ outcome R
     = inr (SystemExit false
              [("changed", JBool false); ("result", JStr "Success");
               ("id", JStr "n1")])
  /\ RefCloud.routers (final R) = [Router.mk "n1" "router1" false].
Proof. cbv zeta; repeat apply conj; reflexivity. Qed.

(** ** Deletion *)

(** C8 (amended).  With the resource present and state absent: the Router
    module issues delete_router on the name it was given (the argument of
    the lookup, not the id of the router found) and reports changed=true
    with no resource; the RoleAssignment convergence function, and the
    user one of os_role, raise NotImplementedError without any backend
    call. *)
Theorem absent_on_existing (B : Backend) (s : state B) :
  (forall s1 s2 s3 name admin_state_up check_mode (r : Router.t),
      handle B openstack_cloud s = (Reply tt, s1) ->
      handle B (cloud_get_router name) s1 = (Reply (Some r), s2) ->
      handle B (cloud_delete_router name) s2 = (Reply tt, s3) ->
      run B (os_router.main
               (mkModule (os_router.mkParams name admin_state_up "absent")
                         check_mode)) s
      = mkRun [openstack_cloud; cloud_get_router name;
               cloud_delete_router name]
              (inr (SystemExit false
                      [("changed", JBool true);
                       ("result", JStr "Deleted")]))
              s3)
  /\ (forall user project role check_mode,
         run B (os_role.ensure_role_absent user project role check_mode) s
         = mkRun [] (inr (NotImplementedError "Not yet implemented")) s)
  /\ (forall user check_mode,
         run B (os_role.ensure_user_absent user check_mode) s
         = mkRun [] (inr (NotImplementedError "Not yet implemented")) s).
Proof.
  repeat apply conj; try reflexivity.
  intros s1 s2 s3 name a cm r H1 H2 H3.
  unfold os_router.main, shade.openstack_cloud, cloud.get_router,
    cloud.delete_router; cbn.
  rewrite H1; cbn. rewrite H2; cbn. rewrite H3; cbn.
  reflexivity.
Qed.

Lemma absent_on_existing_witness :
  run RefCloud.backend (os_router.main (router1_module true "absent" false))
      demo_cloud
  = mkRun [openstack_cloud; cloud_get_router "router1";
           cloud_delete_router "router1"]
          (inr (SystemExit false
                  [("changed", JBool true); ("result", JStr "Deleted")]))
          (RefCloud.set_routers demo_cloud []).
Proof.
  apply (proj1 (absent_on_existing RefCloud.backend demo_cloud)
               demo_cloud demo_cloud (RefCloud.set_routers demo_cloud [])
               "router1" true false (Router.mk "n1" "router1" false));
    reflexivity.
Defined.

(** C8, counterexample.  Removing the existing user john (id u1) issues
    delete_project on the user's id, not delete_user, and john is still
    there afterwards; removing the router n1 named router1 passes the name,
    not the id; removing a role assignment raises NotImplementedError. *)
Lemma delete_is_not_uniform :
  let U := run RefCloud.backend (os_user.ensure_user_absent "john" false)
               demo_cloud in
  let R := run RefCloud.backend
               (os_router.main (router1_module true "absent" false))
               demo_cloud in
  let A := run RefCloud.backend
               (os_role.ensure_role_absent "john" "demo" "admin" false)
               demo_cloud in
  (trace U = [cloud_get_user "john"; cloud_delete_project "u1"]
   /\ ~ In (cloud_delete_user "u1") (trace U)
   /\ RefCloud.users (final U) = RefCloud.users demo_cloud)
  /\ (trace R = [openstack_cloud; cloud_get_router "router1";
                 cloud_delete_router "router1"]
      /\ ~ In (cloud_delete_router "n1") (trace R))
  /\ (outcome A = inr (NotImplementedError "Not yet implemented")
      /\ trace A = []).
Proof.
  cbv zeta; repeat apply conj; try reflexivity.
  - cbn; intros [H | [H | []]]; discriminate.
  - cbn; intros [H | [H | [H | []]]]; discriminate.
Qed.

(** ** Backend failures at the top level *)


Section Failures.
Variable B : Backend.
Variable s : state B.
Variables m x : string.




End Failures.

Section RawFailures.
Variable B : Backend.
Variable s : state B.
Variables m x : string.



End RawFailures.




(** ** Lookup *)

(** C3 (amended).  Looking a user up by name ([get_user]) returns the user
    when exactly one listed user has the name, fails with ValueError when
    two or more have it, and fails with KeyError (it does not return None)
    when none has it; ids are not compared.  Looking a project up
    ([get_project]) compares both id and name, returns the project when
    exactly one listed project matches and None when none matches.  Both
    issue the listing call only. *)
Theorem lookup_over_listing (B : Backend) (s s1 : state B) (name : string) :
  (forall l,
      handle B keystone_users_list s = (Reply l, s1) ->
      let users := filter (fun x => User.name x =? name) l in
      let R := run B (os_role.get_user name) s in
      trace R = [keystone_users_list]
      /\ (forall u, users = [u] -> outcome R = inl u)
      /\ (users = [] ->
          outcome R = inr (KeyError ("No keystone users with name " ++ name)))
      /\ (2 <= length users ->
          outcome R = inr (ValueError (decimal (length users)
                                       ++ " users with name " ++ name))))
  /\ (forall l,
         handle B keystone_projects_list s = (Reply l, s1) ->
         let projects :=
           filter (fun x => (Project.id x =? name)
                            || (Project.name x =? name)) l in
         let R := run B (os_project.get_project name) s in
         trace R = [keystone_projects_list]
         /\ (forall p, projects = [p] -> outcome R = inl (Some p))
         /\ (projects = [] -> outcome R = inl None)).
Proof.
  split; intros l H; cbv zeta.
  - unfold os_role.get_user, os_role.index0, keystone.users_list; cbn.
    rewrite H; cbn.
    destruct (filter (fun x => User.name x =? name) l) as [| u [| v t]];
      cbn; repeat apply conj; try reflexivity; intros;
      try discriminate; try (cbn in *; lia).
    congruence.
  - unfold os_project.get_project, keystone.projects_list; cbn.
    rewrite H; cbn.
    destruct (filter _ l) as [| p t]; cbn; repeat apply conj;
      try reflexivity; intros; try discriminate.
    congruence.
Qed.

Lemma lookup_over_listing_witness :
  outcome (run RefCloud.backend (os_role.get_user "john") demo_cloud)
  = inl (User.mk "u1" "john" None true).
Proof.
  apply (proj1 (lookup_over_listing RefCloud.backend demo_cloud demo_cloud
                  "john")
               [User.mk "u1" "john" None true]);
    reflexivity.
Defined.

(** C3, counterexample.  Two listed projects are named demo, with ids p1
    and p2: [get_project] returns the first one instead of failing.  No
    user is named john: [get_user] raises KeyError instead of returning
    None. *)
Lemma lookup_not_as_specified :
  let P := run RefCloud.backend (os_project.get_project "demo") twin_cloud in
  let U := run RefCloud.backend (os_role.get_user "john") twin_cloud in
  RefCloud.projects twin_cloud
  = [Project.mk "p1" "demo" None true; Project.mk "p2" "demo" None true]
  /\ outcome P = inl (Some (Project.mk "p1" "demo" None true))
  /\ RefCloud.users twin_cloud = []
  /\ outcome U = inr (KeyError "No keystone users with name john").
Proof. cbv zeta; repeat apply conj; reflexivity. Qed.

(** ** Dispatcher *)

(** C5.  With project, user and role all non-empty and state present,
    [dispatch] is the call of [ensure_role_exists] on them followed by the
    construction of the result dict, whatever the project and user
    convergence functions are; and on every combination of fields and
    state that is not a row of the table, [dispatch] raises
    ValueError("Code should never reach here") without issuing any
    backend call. *)
Theorem dispatch_precedence
        (ensure_project_exists :
           string -> option string -> bool -> Prog (bool * option string))
        (ensure_project_absent : string -> bool -> Prog bool)
        (user password project project_description email role :
           option string) (st : string) (check_mode : bool) :
  (truthy project = true -> truthy user = true -> truthy role = true ->
   st = "present" ->
   os_role.dispatch ensure_project_exists ensure_project_absent
                    user password project project_description email role
                    st check_mode
   = (r <- os_role.ensure_role_exists (val user) (val project) (val role)
                                      check_mode ;;
      let (changed, id) := r in
      Ret [("changed", JBool changed); ("id", jopt JStr id)]))
  /\ (in_table project user role st = false ->
      os_role.dispatch ensure_project_exists ensure_project_absent
                       user password project project_description email role
                       st check_mode
      = Raise (ValueError "Code should never reach here")
      /\ forall (B : Backend) (s : state B),
          trace (run B (os_role.dispatch
                          ensure_project_exists ensure_project_absent
                          user password project project_description email
                          role st check_mode) s) = []).
Proof.
  unfold os_role.dispatch, in_table; split.
  - intros Hp Hu Hr ->; rewrite Hp, Hu, Hr; reflexivity.
  - cbn.
    destruct (truthy project), (truthy user), (truthy role),
      (st =? "present"), (st =? "absent");
      cbn; intros H; try discriminate H; split; reflexivity.
Qed.

Lemma dispatch_precedence_witness :
  os_role.dispatch (fun _ _ _ => Ret (true, None)) (fun _ _ => Ret true)
                   (Some "john") None (Some "demo") None None (Some "admin")
                   "present" false
  = (r <- os_role.ensure_role_exists "john" "demo" "admin" false ;;
     let (changed, id) := r in
     Ret [("changed", JBool changed); ("id", jopt JStr id)]).
Proof.
  apply (proj1 (dispatch_precedence
                  (fun _ _ _ => Ret (true, None)) (fun _ _ => Ret true)
                  (Some "john") None (Some "demo") None None (Some "admin")
                  "present" false));
    reflexivity.
Defined.

(** ** Role membership *)

(** C9, on the code as it stands.  john holds two roles named admin in
    demo.  [ensure_role_exists] lists the users, finds john, and raises
    NameError on [get_project]: it never asks for the roles john holds, so
    it never counts them and never raises the ValueError of its [count > 1]
    branch.  It issues no mutating call and leaves the cloud as it was. *)
Theorem role_membership_as_written :
  let R := run RefCloud.backend
               (os_role.ensure_role_exists "john" "demo" "admin" false)
               two_admins_cloud in
  RefCloud.grants two_admins_cloud = [("u1", "r1", "p1"); ("u1", "r2", "p1")]
  /\ outcome R = inr (NameError "get_project")
  /\ trace R = [keystone_users_list]
  /\ final R = two_admins_cloud.
Proof. cbv zeta; repeat apply conj; reflexivity. Qed.

(** ** The password of an existing user *)

Lemma opt_eqb_eq a b : opt_eqb a b = true <-> a = b.
Proof.
  destruct a, b; simpl; split; intros H; try discriminate; auto.
  - apply String.eqb_eq in H; congruence.
  - apply String.eqb_eq; congruence.
Qed.

Lemma stored_passwords_update (f : RefCloud.stored_user -> bool) em e l :
  map RefCloud.su_password
      (map (fun x =>
              if f x then
                RefCloud.mkStored
                  (User.mk (RefCloud.user_id x) (RefCloud.user_name x) em e)
                  (RefCloud.su_password x) (RefCloud.su_project x)
              else x) l)
  = map RefCloud.su_password l.
Proof.
  induction l as [| a l IH]; simpl; [reflexivity |].
  rewrite IH; destruct (f a); reflexivity.
Qed.

(** C10.  For an existing user, [ensure_user_exists] of os_user does not
    look at the password: when enabled and email already have the desired
    values it returns (False, user) after the lookup alone; its run is the
    same for any two passwords; the only mutating call it can issue is
    update_user on the user's id with the desired email and enabled; and
    on the reference cloud the stored passwords are the same before and
    after.  The password is handed over when the user is created. *)
Theorem password_only_at_creation (B : Backend) (s : state B) :
  (forall s1 name password email project enabled check_mode (u : User.t),
      handle B (cloud_get_user name) s = (Reply (Some u), s1) ->
      let R := run B (os_user.ensure_user_exists
                        name password email project enabled check_mode) s in
      (User.enabled u = enabled -> User.email u = email ->
       R = mkRun [cloud_get_user name] (inl (false, Some u)) s1)
      /\ (forall password',
             run B (os_user.ensure_user_exists
                      name password' email project enabled check_mode) s
             = R)
      /\ (forall c, In c (trace R) -> mutating c = true ->
                    c = cloud_update_user (User.id u) email enabled))
  /\ (forall s1 name password email project enabled,
         handle B (cloud_get_user name) s = (Reply None, s1) ->
         filter mutating
           (trace (run B (os_user.ensure_user_exists
                            name password email project enabled false) s))
         = [cloud_create_user name password email project enabled])
  /\ (forall (c : RefCloud.t) name password email project enabled
             check_mode (u : User.t),
         fst (RefCloud.handle (cloud_get_user name) c) = Reply (Some u) ->
         map RefCloud.su_password
             (RefCloud.users
                (final (run RefCloud.backend
                          (os_user.ensure_user_exists
                             name password email project enabled check_mode)
                          c)))
         = map RefCloud.su_password (RefCloud.users c)).
Proof.
  repeat apply conj.
  - intros s1 name password email project enabled check_mode u H R.
    subst R; unfold os_user.ensure_user_exists, cloud.get_user,
      cloud.update_user; cbn; rewrite H; cbn.
    repeat apply conj.
    + intros He Hm.
      rewrite He, Bool.eqb_reflx.
      rewrite (proj2 (opt_eqb_eq (User.email u) email) Hm); reflexivity.
    + reflexivity.
    + destruct (Bool.eqb (User.enabled u) enabled
                && opt_eqb (User.email u) email); cbn.
      * intros c [<- | []]; discriminate.
      * destruct check_mode; cbn.
        -- intros c [<- | []]; discriminate.
        -- destruct (handle B (cloud_update_user (User.id u) email enabled)
                       s1) as [[m x | v] s2]; cbn;
             intros c [<- | [<- | []]]; try discriminate; reflexivity.
  - intros s1 name password email project enabled H.
    unfold os_user.ensure_user_exists, cloud.get_user, cloud.create_user;
      cbn; rewrite H; cbn.
    destruct (handle B (cloud_create_user name password email project
                                          enabled) s1)
      as [[m x | v] s2]; reflexivity.
  - intros c name password email project enabled check_mode u H.
    unfold os_user.ensure_user_exists, cloud.get_user, cloud.update_user.
    cbn in H |- *.
    destruct (RefCloud.lookup User.id User.name
                (map RefCloud.su_user (RefCloud.users c)) name)
      as [m x | [v |]]; try discriminate.
    cbn.
    destruct (Bool.eqb (User.enabled v) enabled
              && opt_eqb (User.email v) email); cbn; [reflexivity |].
    destruct check_mode; cbn; [reflexivity |].
    destruct (find _ (RefCloud.users c)); cbn; [| reflexivity].
    apply stored_passwords_update.
Qed.

Lemma password_only_at_creation_witness :
  run RefCloud.backend
      (os_user.ensure_user_exists "john" (Some "other") None (Some "demo")
                                  true false) demo_cloud
  = mkRun [cloud_get_user "john"]
          (inl (false, Some (User.mk "u1" "john" None true))) demo_cloud.
Proof.
  apply (proj1 (password_only_at_creation RefCloud.backend demo_cloud)
               demo_cloud "john" (Some "other") None (Some "demo") true
               false (User.mk "u1" "john" None true));
    reflexivity.
Defined.

(** ** Converging twice *)

Lemma opt_eqb_refl a : opt_eqb a a = true.
Proof. apply opt_eqb_eq; reflexivity. Qed.

Section RefLookup.
Variable A : Type.
Variables id name : A -> string.

Lemma lookup_none l n :
  RefCloud.lookup id name l n = Reply None ->
  filter (RefCloud.matches id name n) l = [].
Proof.
  unfold RefCloud.lookup.
  destruct (filter _ l) as [| x [| y t]]; intros H;
    try discriminate; reflexivity.
Qed.

Lemma lookup_created l x n :
  name x = n ->
  filter (RefCloud.matches id name n) l = [] ->
  RefCloud.lookup id name (l ++ [x]) n = Reply (Some x).
Proof.
  intros <- H; unfold RefCloud.lookup.
  rewrite filter_app, H; simpl.
  unfold RefCloud.matches at 1.
  rewrite String.eqb_refl, orb_true_r; reflexivity.
Qed.
End RefLookup.

Lemma project_twice (c : RefCloud.t) name description enabled :
  fst (RefCloud.handle (cloud_get_project name) c) = Reply None ->
  let p := os_project.ensure_project_exists name description enabled false in
  let R1 := run RefCloud.backend p c in
  let R2 := run RefCloud.backend p (final R1) in
  exists x, outcome R1 = inl (true, Some x)
            /\ outcome R2 = inl (false, Some x).
Proof.
  intros H; cbn -[RefCloud.lookup RefCloud.fresh] in H.
  pose proof (lookup_none _ _ _ _ H) as Hf.
  exists (Project.mk (RefCloud.fresh c) name description enabled).
  unfold os_project.ensure_project_exists, cloud.get_project,
    cloud.create_project, cloud.update_project.
  cbn -[RefCloud.lookup RefCloud.fresh]; rewrite H.
  cbn -[RefCloud.lookup RefCloud.fresh].
  split; [reflexivity |].
  rewrite (@lookup_created _ Project.id Project.name (RefCloud.projects c)
             (Project.mk (RefCloud.fresh c) name description enabled)
             name eq_refl Hf).
  cbn; rewrite opt_eqb_refl, Bool.eqb_reflx; reflexivity.
Qed.

Lemma user_twice (c : RefCloud.t) name password email project enabled :
  fst (RefCloud.handle (cloud_get_user name) c) = Reply None ->
  let p := os_user.ensure_user_exists name password email project enabled
                                      false in
  let R1 := run RefCloud.backend p c in
  let R2 := run RefCloud.backend p (final R1) in
  exists x, outcome R1 = inl (true, Some x)
            /\ outcome R2 = inl (false, Some x).
Proof.
  intros H; cbn -[RefCloud.lookup RefCloud.fresh] in H.
  pose proof (lookup_none _ _ _ _ H) as Hf.
  exists (User.mk (RefCloud.fresh c) name email enabled).
  unfold os_user.ensure_user_exists, cloud.get_user, cloud.create_user,
    cloud.update_user.
  cbn -[RefCloud.lookup RefCloud.fresh]; rewrite H.
  cbn -[RefCloud.lookup RefCloud.fresh].
  split; [reflexivity |].
  rewrite map_app; cbn -[RefCloud.lookup RefCloud.fresh].
  rewrite (@lookup_created _ User.id User.name
             (map RefCloud.su_user (RefCloud.users c))
             (User.mk (RefCloud.fresh c) name email enabled)
             name eq_refl Hf).
  cbn; rewrite opt_eqb_refl, Bool.eqb_reflx; reflexivity.
Qed.

Lemma router_twice (c : RefCloud.t) name admin_state_up check_mode :
  fst (RefCloud.handle (cloud_get_router name) c) = Reply None ->
  let p := os_router.main
             (mkModule (os_router.mkParams name admin_state_up "present")
                       check_mode) in
  let R1 := run RefCloud.backend p c in
  let R2 := run RefCloud.backend p (final R1) in
  exists i,
    outcome R1 = inr (SystemExit false
                        [("changed", JBool true); ("result", JStr "Created");
                         ("id", JStr i)])
    /\ outcome R2 = inr (SystemExit false
                           [("changed", JBool false);
                            ("result", JStr "Success"); ("id", JStr i)]).
Proof.
  intros H; cbn -[RefCloud.lookup RefCloud.fresh] in H.
  pose proof (lookup_none _ _ _ _ H) as Hf.
  exists (RefCloud.fresh c).
  unfold os_router.main, shade.openstack_cloud, cloud.get_router,
    cloud.create_router.
  cbn -[RefCloud.lookup RefCloud.fresh]; rewrite H.
  cbn -[RefCloud.lookup RefCloud.fresh].
  split; [reflexivity |].
  rewrite (@lookup_created _ Router.id Router.name (RefCloud.routers c)
             (Router.mk (RefCloud.fresh c) name admin_state_up)
             name eq_refl Hf).
  reflexivity.
Qed.

(** C2 (amended).  On the reference cloud, starting from a state in which
    the resource is absent, two successive convergences to present outside
    check mode report changed=true and then changed=false, with the same
    resource (hence the same id) both times, for every desired Project,
    User and Router. *)
Theorem converge_twice (c : RefCloud.t) :
  (forall name description enabled,
      fst (RefCloud.handle (cloud_get_project name) c) = Reply None ->
      let p := os_project.ensure_project_exists name description enabled
                                                false in
      let R1 := run RefCloud.backend p c in
      let R2 := run RefCloud.backend p (final R1) in
      exists x, outcome R1 = inl (true, Some x)
                /\ outcome R2 = inl (false, Some x))
  /\ (forall name password email project enabled,
         fst (RefCloud.handle (cloud_get_user name) c) = Reply None ->
         let p := os_user.ensure_user_exists name password email project
                                             enabled false in
         let R1 := run RefCloud.backend p c in
         let R2 := run RefCloud.backend p (final R1) in
         exists x, outcome R1 = inl (true, Some x)
                   /\ outcome R2 = inl (false, Some x))
  /\ (forall name admin_state_up,
         fst (RefCloud.handle (cloud_get_router name) c) = Reply None ->
         let p := os_router.main
                    (mkModule
                       (os_router.mkParams name admin_state_up "present")
                       false) in
         let R1 := run RefCloud.backend p c in
         let R2 := run RefCloud.backend p (final R1) in
         exists i,
           outcome R1
           = inr (SystemExit false
                    [("changed", JBool true); ("result", JStr "Created");
                     ("id", JStr i)])
           /\ outcome R2
              = inr (SystemExit false
                       [("changed", JBool false); ("result", JStr "Success");
                        ("id", JStr i)])).
Proof.
  repeat apply conj.
  - intros; apply project_twice; assumption.
  - intros; apply user_twice; assumption.
  - intros; apply router_twice; assumption.
Qed.

Lemma converge_twice_witness :
  let p := os_project.ensure_project_exists
             "demo" (Some "Default Tenant") true false in
  let R1 := run RefCloud.backend p RefCloud.empty in
  let R2 := run RefCloud.backend p (final R1) in
  exists x, outcome R1 = inl (true, Some x)
            /\ outcome R2 = inl (false, Some x).
Proof.
  apply (proj1 (converge_twice RefCloud.empty)
               "demo" (Some "Default Tenant") true).
  reflexivity.
Defined.

(** C2, counterexample.  john holds no role in demo and no user is named
    john: the first convergence of the assignment (admin, john, demo)
    raises the KeyError of [get_user] and reports nothing. *)
Lemma role_assignment_needs_its_user :
  let R1 := run RefCloud.backend
                (os_role.ensure_role_exists "john" "demo" "admin" false)
                no_user_cloud in
  RefCloud.grants no_user_cloud = []
  /\ outcome R1 = inr (KeyError "No keystone users with name john")
  /\ (forall x, outcome R1 <> inl (true, x)).
Proof.
  cbv zeta; repeat apply conj; try reflexivity.
  intros x H; vm_compute in H; discriminate H.
Qed.

(** * Further properties of the modules *)

(** ** Filtering a listing *)

Section FilterFacts.
Variable A : Type.
Variable f : A -> bool.

Lemma filter_nil_forallb (l : list A) :
  filter f l = [] <-> forallb (fun x => negb (f x)) l = true.
Proof.
  induction l as [| a l IH]; simpl; [tauto |].
  destruct (f a); simpl; [| exact IH].
  split; discriminate.
Qed.

Lemma filter_cons_split (l : list A) x t :
  filter f l = x :: t ->
  exists l1 l2, l = l1 ++ x :: l2 /\ f x = true
                /\ forallb (fun y => negb (f y)) l1 = true
                /\ t = filter f l2.
Proof.
  induction l as [| a l IH]; simpl; [discriminate |].
  destruct (f a) eqn:E.
  - intros H; injection H as -> <-.
    exists [], l; simpl; auto.
  - intros H; destruct (IH H) as (l1 & l2 & -> & Hx & Hl & Ht).
    exists (a :: l1), l2; simpl; rewrite E; auto.
Qed.

Lemma filter_split_cons (l1 l2 : list A) x :
  f x = true -> forallb (fun y => negb (f y)) l1 = true ->
  filter f (l1 ++ x :: l2) = x :: filter f l2.
Proof.
  intros Hx Hl; rewrite filter_app.
  rewrite (proj2 (filter_nil_forallb l1) Hl); simpl.
  rewrite Hx; reflexivity.
Qed.
End FilterFacts.

(** ** The lookups of os_role.py and os_project.py *)

(** X1.  Each lookup that os_role.py and os_project.py define issues
    exactly one call, the listing of its kind, whatever the backend
    replies and whatever the lookup then returns or raises. *)
Theorem lookups_issue_one_listing (B : Backend) (s : state B)
        (name : string) :
  trace (run B (os_role.get_user name) s) = [keystone_users_list]
  /\ trace (run B (os_role.get_role name) s) = [keystone_roles_list]
  /\ trace (run B (os_project.get_project name) s)
     = [keystone_projects_list]
  /\ trace (run B (os_role.user_exists name) s) = [keystone_users_list]
  /\ trace (run B (os_role.get_user_id name) s) = [keystone_users_list].
Proof.
  unfold os_role.get_user, os_role.get_role, os_role.get_user_id,
    os_role.user_exists, os_project.get_project, os_role.get_user,
    os_role.index0, keystone.users_list, keystone.roles_list,
    keystone.projects_list.
  repeat apply conj; run_cases; reflexivity.
Qed.

(** X2.  [get_role] returns the role when exactly one listed role has the
    name, raises KeyError when none has it and ValueError, with the count
    in the message, when two or more have it. *)
Theorem get_role_cases (B : Backend) (s s1 : state B) (name : string)
        (l : list Role.t) :
  handle B keystone_roles_list s = (Reply l, s1) ->
  let roles := filter (fun x => Role.name x =? name) l in
  let R := run B (os_role.get_role name) s in
  (forall r, roles = [r] -> outcome R = inl r)
  /\ (roles = [] ->
      outcome R = inr (KeyError ("No keystone roles with name " ++ name)))
  /\ (2 <= length roles ->
      outcome R = inr (ValueError (decimal (length roles)
                                   ++ " roles with name " ++ name))).
Proof.
  intros H; cbv zeta.
  unfold os_role.get_role, os_role.index0, keystone.roles_list; cbn.
  rewrite H; cbn.
  destruct (filter (fun x => Role.name x =? name) l) as [| r [| r' t]];
    cbn; repeat apply conj; try reflexivity; intros;
    try discriminate; try (cbn in *; lia).
  congruence.
Qed.

Lemma get_role_cases_witness :
  outcome (run RefCloud.backend (os_role.get_role "admin") two_admins_cloud)
  = inr (ValueError "2 roles with name admin").
Proof.
  apply (proj2 (proj2 (@get_role_cases RefCloud.backend two_admins_cloud
                         two_admins_cloud "admin"
                         [Role.mk "r1" "admin"; Role.mk "r2" "admin"]
                         eq_refl))).
  cbn; lia.
Defined.

(** X3.  [get_project] returns a project exactly when that project is the
    first one of the listing whose id or name is the argument, and returns
    None exactly when no listed project has the argument as id or name. *)
Theorem get_project_first_match (B : Backend) (s s1 : state B)
        (name : string) (l : list Project.t) :
  handle B keystone_projects_list s = (Reply l, s1) ->
  let m := fun x => (Project.id x =? name) || (Project.name x =? name) in
  let R := run B (os_project.get_project name) s in
  (forall p,
      outcome R = inl (Some p)
      <-> exists l1 l2, l = l1 ++ p :: l2 /\ m p = true
                        /\ forallb (fun x => negb (m x)) l1 = true)
  /\ (outcome R = inl None <-> forallb (fun x => negb (m x)) l = true).
Proof.
  intros H m R; subst R.
  unfold os_project.get_project, keystone.projects_list; cbn.
  rewrite H; cbn; fold m.
  destruct (filter m l) as [| x t] eqn:E; cbn; split.
  - intros p; split; [discriminate |].
    intros (l1 & l2 & -> & Hp & Hl).
    rewrite (filter_split_cons m l1 l2 p Hp Hl) in E; discriminate.
  - split; intros _; [apply filter_nil_forallb; exact E | reflexivity].
  - intros p; split.
    + intros Hx; injection Hx as ->.
      destruct (filter_cons_split m l E) as (l1 & l2 & -> & Hp & Hl & _).
      exists l1, l2; auto.
    + intros (l1 & l2 & -> & Hp & Hl).
      rewrite (filter_split_cons m l1 l2 p Hp Hl) in E.
      injection E as -> _; reflexivity.
  - split; [discriminate |].
    intros Hn; apply filter_nil_forallb in Hn; congruence.
Qed.

Lemma get_project_first_match_witness :
  outcome (run RefCloud.backend (os_project.get_project "demo") twin_cloud)
  = inl (Some (Project.mk "p1" "demo" None true)).
Proof.
  apply (proj1 (@get_project_first_match RefCloud.backend twin_cloud
                  twin_cloud "demo"
                  [Project.mk "p1" "demo" None true;
                   Project.mk "p2" "demo" None true] eq_refl)).
  exists [], [Project.mk "p2" "demo" None true].
  repeat split.
Defined.

(** X4.  [user_exists] returns True exactly when some listed user has the
    name, and returns False exactly when [get_user], on the same backend
    state, raises KeyError. *)
Theorem user_exists_agrees_with_get_user (B : Backend) (s s1 : state B)
        (name : string) (l : list User.t) :
  handle B keystone_users_list s = (Reply l, s1) ->
  (outcome (run B (os_role.user_exists name) s) = inl true
   <-> exists u, In u l /\ User.name u = name)
  /\ (outcome (run B (os_role.user_exists name) s) = inl false
      <-> exists msg,
          outcome (run B (os_role.get_user name) s) = inr (KeyError msg)).
Proof.
  intros H.
  unfold os_role.user_exists, os_role.get_user, os_role.index0,
    keystone.users_list; cbn.
  rewrite H; cbn.
  assert (E : existsb (String.eqb name) (map User.name l)
              = negb (Nat.eqb
                        (length (filter (fun x => User.name x =? name) l))
                        0)).
  { clear H; induction l as [| a l IH]; simpl; [reflexivity |].
    rewrite (String.eqb_sym name (User.name a)).
    destruct (User.name a =? name); simpl; [reflexivity | exact IH]. }
  split.
  - split.
    + intros Hx; injection Hx as Hx.
      apply existsb_exists in Hx; destruct Hx as (n & Hn & Hx).
      apply in_map_iff in Hn; destruct Hn as (u & <- & Hu).
      apply String.eqb_eq in Hx; eauto.
    + intros (u & Hu & <-); f_equal.
      apply existsb_exists; exists (User.name u); split.
      * apply in_map; exact Hu.
      * apply String.eqb_refl.
  - rewrite E.
    destruct (filter (fun x => User.name x =? name) l) as [| a [| b t]];
      cbn; split; intros Hx; try discriminate; eauto.
    + destruct Hx as (msg & Hx); discriminate.
    + destruct Hx as (msg & Hx); discriminate.
Qed.

Lemma user_exists_agrees_with_get_user_witness :
  outcome (run RefCloud.backend (os_role.user_exists "john") demo_cloud)
  = inl true.
Proof.
  apply (proj1 (@user_exists_agrees_with_get_user RefCloud.backend
                  demo_cloud demo_cloud "john"
                  [User.mk "u1" "john" None true] eq_refl)).
  exists (User.mk "u1" "john" None true); split;
    [left; reflexivity | reflexivity].
Defined.

(** X5.  As os_role.py stands, with [get_project] undefined:
    [get_project_id] raises NameError on every input without any call;
    [ensure_role_exists] issues the users listing and nothing else, and
    never returns a result: it ends with an exception in both modes, which
    is that NameError whenever exactly one listed user has the name. *)
Theorem role_functions_as_written (B : Backend) (s : state B) :
  (forall name,
      run B (os_role.get_project_id name) s
      = mkRun [] (inr (NameError "get_project")) s)
  /\ (forall user_name project_name role_name check_mode,
         let R := run B (os_role.ensure_role_exists
                           user_name project_name role_name check_mode) s in
         trace R = [keystone_users_list]
         /\ exists e, outcome R = inr e)
  /\ (forall user_name project_name role_name check_mode l s1 u,
         handle B keystone_users_list s = (Reply l, s1) ->
         filter (fun x => User.name x =? user_name) l = [u] ->
         run B (os_role.ensure_role_exists
                  user_name project_name role_name check_mode) s
         = mkRun [keystone_users_list] (inr (NameError "get_project")) s1).
Proof.
  repeat apply conj.
  - reflexivity.
  - intros user_name project_name role_name check_mode; cbv zeta.
    unfold os_role.ensure_role_exists, os_role.get_user, os_role.index0,
      os_role.get_project, keystone.users_list.
    run_cases; (split; [reflexivity | eexists; reflexivity]).
  - intros user_name project_name role_name check_mode l s1 u H E.
    unfold os_role.ensure_role_exists, os_role.get_user, os_role.index0,
      os_role.get_project, keystone.users_list.
    cbn; rewrite H; cbn; rewrite E; reflexivity.
Qed.

Lemma role_functions_as_written_witness :
  run RefCloud.backend
      (os_role.ensure_role_exists "john" "demo" "admin" false) demo_cloud
  = mkRun [keystone_users_list] (inr (NameError "get_project")) demo_cloud.
Proof.
  apply (proj2 (proj2 (role_functions_as_written RefCloud.backend
                         demo_cloud))
               "john" "demo" "admin" false
               [User.mk "u1" "john" None true] demo_cloud
               (User.mk "u1" "john" None true));
    reflexivity.
Defined.

(** ** [ensure_user_exists] of os_role.py *)

(** X6.  When exactly one listed user has the name, [ensure_user_exists]
    returns (False, id of that user) after the listing alone, whatever the
    password, email, project and check mode.  When two or more have it,
    the ValueError of [get_user] is not caught: it leaves the function,
    again after the listing alone. *)
Theorem role_user_exists_found (B : Backend) (s s1 : state B)
        (user_name : string) (password email : option string)
        (project_name : string) (check_mode : bool) (l : list User.t) :
  handle B keystone_users_list s = (Reply l, s1) ->
  let users := filter (fun x => User.name x =? user_name) l in
  let R := run B (os_role.ensure_user_exists user_name password email
                                             project_name check_mode) s in
  (forall u, users = [u] ->
             R = mkRun [keystone_users_list]
                       (inl (false, Some (User.id u))) s1)
  /\ (2 <= length users ->
      R = mkRun [keystone_users_list]
                (inr (ValueError (decimal (length users)
                                  ++ " users with name " ++ user_name)))
                s1).
Proof.
  intros H; cbv zeta.
  unfold os_role.ensure_user_exists, os_role.get_user, os_role.index0,
    keystone.users_list; cbn.
  rewrite H; cbn.
  destruct (filter (fun x => User.name x =? user_name) l)
    as [| a [| b t]]; cbn; split; intros; try discriminate;
    try (cbn in *; lia); try reflexivity.
  congruence.
Qed.

Lemma role_user_exists_found_witness :
  run RefCloud.backend
      (os_role.ensure_user_exists "john" (Some "other") None "nowhere" false)
      demo_cloud
  = mkRun [keystone_users_list] (inl (false, Some "u1")) demo_cloud.
Proof.
  apply (proj1 (@role_user_exists_found RefCloud.backend demo_cloud
                  demo_cloud "john" (Some "other") None "nowhere" false
                  [User.mk "u1" "john" None true] eq_refl)
               (User.mk "u1" "john" None true)).
  reflexivity.
Defined.

(** X7.  When no listed user has the name: in check mode
    [ensure_user_exists] returns (True, None) after the listing; outside
    check mode it raises NameError on [get_project], which os_role.py does
    not define, after the listing, and creates no user. *)
Theorem role_user_exists_missing (B : Backend) (s s1 : state B)
        (user_name : string) (password email : option string)
        (project_name : string) (l : list User.t) :
  handle B keystone_users_list s = (Reply l, s1) ->
  filter (fun x => User.name x =? user_name) l = [] ->
  let prog := os_role.ensure_user_exists user_name password email
                                         project_name in
  run B (prog true) s = mkRun [keystone_users_list] (inl (true, None)) s1
  /\ run B (prog false) s
     = mkRun [keystone_users_list] (inr (NameError "get_project")) s1.
Proof.
  intros H E prog; subst prog.
  unfold os_role.ensure_user_exists, os_role.get_user, os_role.index0,
    os_role.get_project, keystone.users_list.
  cbn; rewrite H; cbn; rewrite E; cbn.
  split; reflexivity.
Qed.

Lemma role_user_exists_missing_witness :
  run RefCloud.backend
      (os_role.ensure_user_exists "john" (Some "secrete") None "demo" false)
      no_user_cloud
  = mkRun [keystone_users_list] (inr (NameError "get_project"))
          no_user_cloud.
Proof.
  apply (proj2 (@role_user_exists_missing RefCloud.backend no_user_cloud
                  no_user_cloud "john" (Some "secrete") None "demo" []
                  eq_refl eq_refl)).
Defined.

(** ** What the changed flag says about the calls *)

Ltac flag_leaf :=
  intros;
  first
    [ discriminate
    | reflexivity
    | match goal with
      | H : inr _ = inr _ |- _ => injection H as <-
      end;
      match goal with
      | H : In _ _ |- _ => cbn in H; decompose [or] H
      end;
      first [discriminate | contradiction | reflexivity] ].

(** X12.  A convergence function that reports changed=False has issued no
    mutating call, for every backend, whatever it replies, in check mode
    and outside it. *)
Theorem unchanged_means_untouched (B : Backend) (s : state B) :
  (forall name description enabled check_mode x,
      outcome (run B (os_project.ensure_project_exists
                        name description enabled check_mode) s)
      = inl (false, x) ->
      mutations (trace (run B (os_project.ensure_project_exists
                                 name description enabled check_mode) s))
      = 0)
  /\ (forall project_name name check_mode,
         outcome (run B (os_project.ensure_project_absent
                           project_name name check_mode) s) = inl false ->
         mutations (trace (run B (os_project.ensure_project_absent
                                    project_name name check_mode) s)) = 0)
  /\ (forall name password email project enabled check_mode x,
         outcome (run B (os_user.ensure_user_exists
                           name password email project enabled check_mode)
                        s) = inl (false, x) ->
         mutations (trace (run B (os_user.ensure_user_exists
                                    name password email project enabled
                                    check_mode) s)) = 0)
  /\ (forall name_or_id check_mode,
         outcome (run B (os_user.ensure_user_absent name_or_id check_mode)
                        s) = inl false ->
         mutations (trace (run B (os_user.ensure_user_absent
                                    name_or_id check_mode) s)) = 0)
  /\ (forall user_name password email project_name check_mode x,
         outcome (run B (os_role.ensure_user_exists
                           user_name password email project_name
                           check_mode) s) = inl (false, x) ->
         mutations (trace (run B (os_role.ensure_user_exists
                                    user_name password email project_name
                                    check_mode) s)) = 0)
  /\ (forall user_name project_name role_name check_mode x,
         outcome (run B (os_role.ensure_role_exists
                           user_name project_name role_name check_mode) s)
         = inl (false, x) ->
         mutations (trace (run B (os_role.ensure_role_exists
                                    user_name project_name role_name
                                    check_mode) s)) = 0)
  /\ (forall module kw,
         outcome (run B (os_router.main module) s)
         = inr (SystemExit false kw) ->
         In ("changed", JBool false) kw ->
         mutations (trace (run B (os_router.main module) s)) = 0).
Proof.
  unfold os_project.ensure_project_exists, os_project.ensure_project_absent,
    os_user.ensure_user_exists, os_user.ensure_user_absent,
    os_role.ensure_user_exists, os_role.ensure_role_exists,
    os_router.main, os_role.get_user, os_role.get_role, os_role.index0,
    os_role.get_project, os_project.get_project, os_role.project_id_of,
    shade.openstack_cloud, cloud.get_project, cloud.update_project,
    cloud.create_project, cloud.delete_project, cloud.get_user,
    cloud.update_user, cloud.create_user, cloud.get_router,
    cloud.create_router, cloud.delete_router, keystone.users_list,
    keystone.projects_list, keystone.users_create, keystone.roles_list,
    keystone.roles_for_user, keystone.roles_create, keystone.add_user_role.
  repeat apply conj.
  - intros name description enabled check_mode x; run_cases; flag_leaf.
  - intros [project_name |] name check_mode; run_cases; flag_leaf.
  - intros name password email project enabled check_mode x;
      run_cases; flag_leaf.
  - intros name_or_id check_mode; run_cases; flag_leaf.
  - intros user_name password email project_name check_mode x;
      run_cases; flag_leaf.
  - intros user_name project_name role_name check_mode x;
      run_cases; flag_leaf.
  - intros [p check_mode] kw; run_cases; flag_leaf.
Qed.

Lemma unchanged_means_untouched_witness :
  mutations
    (trace (run RefCloud.backend
              (os_project.ensure_project_exists
                 "demo" (Some "Default Tenant") true false) demo_cloud))
  = 0.
Proof.
  apply (proj1 (unchanged_means_untouched RefCloud.backend demo_cloud)
               "demo" (Some "Default Tenant") true false
               (Some (Project.mk "p1" "demo" (Some "Default Tenant") true))).
  reflexivity.
Defined.

Ltac count_leaf :=
  intros;
  first
    [ discriminate
    | reflexivity
    | solve [unfold mutations; cbn; lia]
    | match goal with
      | H : inr _ = inr _ |- _ => injection H as <-
      end;
      match goal with
      | H : In _ _ |- _ => cbn in H; decompose [or] H
      end;
      first [discriminate | contradiction | reflexivity] ].

(** X13.  Outside check mode, a Project, User or Router convergence that
    reports changed=True has issued exactly one mutating call. *)
Theorem changed_means_mutated (B : Backend) (s : state B) :
  (forall name description enabled x,
      outcome (run B (os_project.ensure_project_exists
                        name description enabled false) s) = inl (true, x) ->
      mutations (trace (run B (os_project.ensure_project_exists
                                 name description enabled false) s)) = 1)
  /\ (forall project_name name,
         outcome (run B (os_project.ensure_project_absent
                           project_name name false) s) = inl true ->
         mutations (trace (run B (os_project.ensure_project_absent
                                    project_name name false) s)) = 1)
  /\ (forall name password email project enabled x,
         outcome (run B (os_user.ensure_user_exists
                           name password email project enabled false) s)
         = inl (true, x) ->
         mutations (trace (run B (os_user.ensure_user_exists
                                    name password email project enabled
                                    false) s)) = 1)
  /\ (forall name_or_id,
         outcome (run B (os_user.ensure_user_absent name_or_id false) s)
         = inl true ->
         mutations (trace (run B (os_user.ensure_user_absent
                                    name_or_id false) s)) = 1)
  /\ (forall module kw,
         outcome (run B (os_router.main module) s)
         = inr (SystemExit false kw) ->
         In ("changed", JBool true) kw ->
         mutations (trace (run B (os_router.main module) s)) = 1).
Proof.
  unfold os_project.ensure_project_exists, os_project.ensure_project_absent,
    os_user.ensure_user_exists, os_user.ensure_user_absent,
    os_router.main, shade.openstack_cloud, cloud.get_project,
    cloud.update_project, cloud.create_project, cloud.delete_project,
    cloud.get_user, cloud.update_user, cloud.create_user, cloud.get_router,
    cloud.create_router, cloud.delete_router.
  repeat apply conj.
  - intros name description enabled x; run_cases; count_leaf.
  - intros [project_name |] name; run_cases; count_leaf.
  - intros name password email project enabled x; run_cases; count_leaf.
  - intros name_or_id; run_cases; count_leaf.
  - intros [p check_mode] kw; run_cases; count_leaf.
Qed.

Lemma changed_means_mutated_witness :
  mutations
    (trace (run RefCloud.backend
              (os_project.ensure_project_exists
                 "demo" (Some "Default Tenant") true false) RefCloud.empty))
  = 1.
Proof.
  apply (proj1 (changed_means_mutated RefCloud.backend RefCloud.empty)
               "demo" (Some "Default Tenant") true
               (Some (Project.mk "id-0" "demo" (Some "Default Tenant")
                                 true))).
  reflexivity.
Defined.

Ltac predict_leaf :=
  intros;
  first
    [ discriminate
    | assumption
    | match goal with
      | H : inl (_, _) = inl (_, _) |- _ => injection H as <- <-
      end;
      eexists; reflexivity ].

(** X14.  The changed flag of a check-mode run is the one the real run
    reports: whenever a convergence function returns outside check mode,
    it returns in check mode from the same backend state with the same
    changed flag. *)
Theorem check_mode_predicts_changed (B : Backend) (s : state B) :
  (forall name description enabled changed x,
      outcome (run B (os_project.ensure_project_exists
                        name description enabled false) s)
      = inl (changed, x) ->
      exists y,
        outcome (run B (os_project.ensure_project_exists
                          name description enabled true) s)
        = inl (changed, y))
  /\ (forall project_name name changed,
         outcome (run B (os_project.ensure_project_absent
                           project_name name false) s) = inl changed ->
         outcome (run B (os_project.ensure_project_absent
                           project_name name true) s) = inl changed)
  /\ (forall name password email project enabled changed x,
         outcome (run B (os_user.ensure_user_exists
                           name password email project enabled false) s)
         = inl (changed, x) ->
         exists y,
           outcome (run B (os_user.ensure_user_exists
                             name password email project enabled true) s)
           = inl (changed, y))
  /\ (forall name_or_id changed,
         outcome (run B (os_user.ensure_user_absent name_or_id false) s)
         = inl changed ->
         outcome (run B (os_user.ensure_user_absent name_or_id true) s)
         = inl changed)
  /\ (forall user_name password email project_name changed x,
         outcome (run B (os_role.ensure_user_exists
                           user_name password email project_name false) s)
         = inl (changed, x) ->
         exists y,
           outcome (run B (os_role.ensure_user_exists
                             user_name password email project_name true) s)
           = inl (changed, y))
  /\ (forall user_name project_name role_name changed x,
         outcome (run B (os_role.ensure_role_exists
                           user_name project_name role_name false) s)
         = inl (changed, x) ->
         exists y,
           outcome (run B (os_role.ensure_role_exists
                             user_name project_name role_name true) s)
           = inl (changed, y)).
Proof.
  unfold os_project.ensure_project_exists, os_project.ensure_project_absent,
    os_user.ensure_user_exists, os_user.ensure_user_absent,
    os_role.ensure_user_exists, os_role.ensure_role_exists,
    os_role.get_user, os_role.get_role, os_role.index0,
    os_role.get_project, os_project.get_project, os_role.project_id_of,
    cloud.get_project, cloud.update_project,
    cloud.create_project, cloud.delete_project, cloud.get_user,
    cloud.update_user, cloud.create_user, keystone.users_list,
    keystone.projects_list, keystone.users_create, keystone.roles_list,
    keystone.roles_for_user, keystone.roles_create, keystone.add_user_role.
  repeat apply conj.
  - intros name description enabled changed x; run_cases; predict_leaf.
  - intros [project_name |] name changed; run_cases; predict_leaf.
  - intros name password email project enabled changed x;
      run_cases; predict_leaf.
  - intros name_or_id changed; run_cases; predict_leaf.
  - intros user_name password email project_name changed x;
      run_cases; predict_leaf.
  - intros user_name project_name role_name changed x;
      run_cases; predict_leaf.
Qed.

Lemma check_mode_predicts_changed_witness :
  exists y,
    outcome (run RefCloud.backend
               (os_project.ensure_project_exists "demo" None false true)
               demo_cloud)
    = inl (true, y).
Proof.
  apply (proj1 (check_mode_predicts_changed RefCloud.backend demo_cloud)
               "demo" None false true
               (Some (Project.mk "p1" "demo" None false))).
  reflexivity.
Defined.

(** ** [ensure_user_absent] of os_user.py *)

(** X15.  The only mutating call [ensure_user_absent] can issue is
    delete_project, on the id of the user its lookup returned: it never
    issues a user deletion.  On the reference cloud the users are the same
    after the call as before. *)
Theorem user_absent_never_deletes_user :
  (forall (B : Backend) (s : state B) name_or_id check_mode c,
      In c (trace (run B (os_user.ensure_user_absent name_or_id check_mode)
                       s)) ->
      mutating c = true ->
      exists u,
        fst (handle B (cloud_get_user name_or_id) s) = Reply (Some u)
        /\ c = cloud_delete_project (User.id u))
  /\ (forall (c : RefCloud.t) name_or_id check_mode,
         RefCloud.users
           (final (run RefCloud.backend
                     (os_user.ensure_user_absent name_or_id check_mode) c))
         = RefCloud.users c).
Proof.
  split.
  - intros B s n cm c.
    unfold os_user.ensure_user_absent, cloud.get_user, cloud.delete_project.
    cbn.
    destruct (handle B (cloud_get_user n) s) as [[m x | [u |]] s1]; cbn.
    + intros [<- | []]; discriminate.
    + destruct cm; cbn.
      * intros [<- | []]; discriminate.
      * destruct (handle B (cloud_delete_project (User.id u)) s1)
          as [[m x | []] s2]; cbn;
          (intros [<- | [<- | []]]; [discriminate | eauto]).
    + intros [<- | []]; discriminate.
  - intros c n cm.
    unfold os_user.ensure_user_absent, cloud.get_user, cloud.delete_project.
    cbn.
    destruct (RefCloud.lookup User.id User.name
                (map RefCloud.su_user (RefCloud.users c)) n)
      as [m x | [u |]]; cbn; try reflexivity.
    destruct cm; reflexivity.
Qed.

(** ** The rows of [dispatch] *)

(** X16.  For every backend: [dispatch] with a project alone runs the
    project function and nothing else, with a project and a user it runs
    [ensure_user_exists] on the user, password, email and project; the
    calls issued and the final state are those of the function, its
    exception is passed on, and its result (changed, id) becomes the dict
    with the keys changed and id, where a removal reports no id.  With a
    user supplied, state absent raises NotImplementedError, with or
    without a role, without any backend call. *)
Theorem dispatch_rows
        (ensure_project_exists :
           string -> option string -> bool -> Prog (bool * option string))
        (ensure_project_absent : string -> bool -> Prog bool)
        (user password project project_description email role :
           option string) (check_mode : bool)
        (B : Backend) (s : state B) :
  let dispatch st :=
    run B (os_role.dispatch ensure_project_exists ensure_project_absent
                            user password project project_description email
                            role st check_mode) s in
  let report (o : bool * option string + exn) : kwargs + exn :=
    match o with
    | inl (changed, id) =>
        inl [("changed", JBool changed); ("id", jopt JStr id)]
    | inr e => inr e
    end in
  truthy project = true ->
  (truthy user = false -> truthy role = false ->
   (let R := run B (ensure_project_exists (val project) project_description
                                          check_mode) s in
    dispatch "present" = mkRun (trace R) (report (outcome R)) (final R))
   /\ (let R := run B (ensure_project_absent (val project) check_mode) s in
       dispatch "absent"
       = mkRun (trace R)
               (match outcome R with
                | inl changed =>
                    inl [("changed", JBool changed); ("id", JNone)]
                | inr e => inr e
                end)
               (final R)))
  /\ (truthy user = true -> truthy role = false ->
      let R := run B (os_role.ensure_user_exists (val user) password email
                                                 (val project) check_mode)
                   s in
      dispatch "present" = mkRun (trace R) (report (outcome R)) (final R))
  /\ (truthy user = true ->
      dispatch "absent"
      = mkRun [] (inr (NotImplementedError "Not yet implemented")) s).
Proof.
  intros dispatch report Hp; subst dispatch report.
  unfold os_role.dispatch; rewrite Hp.
  repeat apply conj.
  - intros Hu Hr; rewrite Hu, Hr; cbn -[run]; split.
    + rewrite run_bind.
      destruct (run B (ensure_project_exists _ _ _) s) as [tr [[c i] | e] f];
        cbn; rewrite ?app_nil_r; reflexivity.
    + rewrite !run_bind.
      destruct (run B (ensure_project_absent _ _) s) as [tr [c | e] f];
        cbn; rewrite ?app_nil_r; reflexivity.
  - intros Hu Hr; rewrite Hu, Hr; cbn -[run os_role.ensure_user_exists].
    rewrite run_bind.
    destruct (run B (os_role.ensure_user_exists _ _ _ _ _) s)
      as [tr [[c i] | e] f]; cbn; rewrite ?app_nil_r; reflexivity.
  - intros Hu; rewrite Hu; destruct (truthy role); reflexivity.
Qed.

Lemma dispatch_rows_witness :
  run RefCloud.backend
      (os_role.dispatch (fun _ _ _ => Ret (true, None)) (fun _ _ => Ret true)
                        (Some "john") None (Some "demo") None None
                        (Some "admin") "absent" false) demo_cloud
  = mkRun [] (inr (NotImplementedError "Not yet implemented")) demo_cloud.
Proof.
  apply (proj2 (proj2 (@dispatch_rows
                         (fun _ _ _ => Ret (true, None)) (fun _ _ => Ret true)
                         (Some "john") None (Some "demo") None None
                         (Some "admin") false RefCloud.backend demo_cloud
                         eq_refl)));
    reflexivity.
Defined.

(** X17.  [dispatch] treats an empty string like a missing value: for each
    of user, role and project, an empty or missing value may be replaced
    by None without changing what [dispatch] does. *)
Theorem dispatch_empty_is_missing
        (ensure_project_exists :
           string -> option string -> bool -> Prog (bool * option string))
        (ensure_project_absent : string -> bool -> Prog bool)
        (user password project project_description email role :
           option string) (st : string) (check_mode : bool) :
  let dispatch := os_role.dispatch ensure_project_exists
                                   ensure_project_absent in
  (truthy user = false ->
   dispatch user password project project_description email role st
            check_mode
   = dispatch None password project project_description email role st
              check_mode)
  /\ (truthy role = false ->
      dispatch user password project project_description email role st
               check_mode
      = dispatch user password project project_description email None st
                 check_mode)
  /\ (truthy project = false ->
      dispatch user password project project_description email role st
               check_mode
      = dispatch user password None project_description email role st
                 check_mode).
Proof.
  cbv zeta; unfold os_role.dispatch; repeat apply conj; intros H;
    rewrite H; cbn [truthy negb andb];
    rewrite ?andb_false_r; cbn [andb];
    destruct (truthy project), (truthy user), (truthy role),
      (st =? "present"), (st =? "absent");
    try discriminate H; reflexivity.
Qed.

Lemma dispatch_empty_is_missing_witness :
  os_role.dispatch (fun _ _ _ => Ret (true, None)) (fun _ _ => Ret true)
                   (Some "") None (Some "demo") None None None "present"
                   false
  = os_role.dispatch (fun _ _ _ => Ret (true, None)) (fun _ _ => Ret true)
                     None None (Some "demo") None None None "present" false.
Proof.
  apply (proj1 (dispatch_empty_is_missing
                  (fun _ _ _ => Ret (true, None)) (fun _ _ => Ret true)
                  (Some "") None (Some "demo") None None None "present"
                  false)).
  reflexivity.
Defined.

(** ** The [main] functions *)

(** X18.  The [main] of os_role.py never reaches the dispatcher, and the
    [main] of os_user.py never converges a user to present: each opens
    the session and issues no other call, ending with NameError when the
    session opens and with the check-mode report or the failure of the
    [except] clause when it does not. *)
Theorem mains_that_never_converge (B : Backend) (s : state B) :
  (forall module,
      let R := run B (os_role.main module) s in
      trace R = [openstack_cloud]
      /\ (outcome R = inr (NameError "d")
          \/ exists m x, outcome R = inr (lenient (check_mode module) m x)))
  /\ (forall name email project password enabled check_mode,
         let module := mkModule (os_user.mkParams name email project
                                                  password enabled "present")
                                check_mode in
         let R := run B (os_user.main module) s in
         trace R = [openstack_cloud]
         /\ (outcome R = inr (NameError "ensure_user_present")
             \/ exists m x, outcome R = inr (lenient check_mode m x))).
Proof.
  split.
  - intros [p cm]; cbv zeta.
    unfold os_role.main, shade.openstack_cloud, lenient; cbn.
    destruct (handle B openstack_cloud s) as [[m x | []] s1], cm; cbn;
      (split; [reflexivity |]); eauto.
  - intros name email project password enabled cm; cbv zeta.
    unfold os_user.main, shade.openstack_cloud, lenient; cbn.
    destruct (handle B openstack_cloud s) as [[m x | []] s1], cm; cbn;
      (split; [reflexivity |]); eauto.
Qed.

Section RunTry.
Variable B : Backend.

Lemma run_try A C (p : Prog A) (h : exn -> option (Prog C))
      (k : A -> Prog C) (s : state B) :
  run B (try_except_else p h k) s =
  let R := run B p s in
  match outcome R with
  | inl a =>
      let R' := run B (k a) (final R) in
      mkRun (trace R ++ trace R') (outcome R') (final R')
  | inr e =>
      match h e with
      | Some q =>
          let R' := run B q (final R) in
          mkRun (trace R ++ trace R') (outcome R') (final R')
      | None => mkRun (trace R) (inr e) (final R)
      end
  end.
Proof.
  revert s; induction p as [a | e | c f IH]; intros s; simpl.
  - destruct (run B (k a) s); reflexivity.
  - destruct (h e) as [q |]; [| reflexivity].
    destruct (run B q s); reflexivity.
  - destruct (handle B c s) as [r s']; simpl.
    rewrite IH; cbv zeta.
    destruct (outcome (run B (f r) s')); [reflexivity |].
    destruct (h e); reflexivity.
Qed.
End RunTry.

(** X19.  Once the session is open, the [main] of os_project.py reports
    what the convergence function returns: for state present,
    exit_json(changed, project) with the pair returned by
    [ensure_project_exists] on the module's project, description and
    enabled; for state absent, exit_json(changed) with the flag returned
    by [ensure_project_absent].  The [main] of os_user.py does the same for
    any state other than present with [ensure_user_absent].  The calls are
    the session opening followed by those of the function. *)
Theorem mains_report_convergence (B : Backend) (s s1 : state B) :
  handle B openstack_cloud s = (Reply tt, s1) ->
  (forall project_name project description enabled check_mode changed
          project_obj,
      let E := run B (os_project.ensure_project_exists
                        project description enabled check_mode) s1 in
      outcome E = inl (changed, project_obj) ->
      run B (os_project.main
               project_name
               (mkModule (os_project.mkParams project description "present"
                                              enabled) check_mode)) s
      = mkRun (openstack_cloud :: trace E)
              (inr (SystemExit false
                      [("changed", JBool changed);
                       ("project", jopt JProject project_obj)]))
              (final E))
  /\ (forall project_name project description enabled check_mode changed,
         let E := run B (os_project.ensure_project_absent
                           project_name project check_mode) s1 in
         outcome E = inl changed ->
         run B (os_project.main
                  project_name
                  (mkModule (os_project.mkParams project description
                                                 "absent" enabled)
                            check_mode)) s
         = mkRun (openstack_cloud :: trace E)
                 (inr (SystemExit false [("changed", JBool changed)]))
                 (final E))
  /\ (forall name email project password enabled st check_mode changed,
         let E := run B (os_user.ensure_user_absent name check_mode) s1 in
         (st =? "present") = false ->
         outcome E = inl changed ->
         run B (os_user.main
                  (mkModule (os_user.mkParams name email project password
                                              enabled st) check_mode)) s
         = mkRun (openstack_cloud :: trace E)
                 (inr (SystemExit false [("changed", JBool changed)]))
                 (final E)).
Proof.
  intros H; repeat apply conj.
  - intros pn project description enabled cm changed po E HE.
    unfold os_project.main, shade.openstack_cloud, call.
    rewrite run_try; cbn -[os_project.ensure_project_exists].
    rewrite H; cbn -[os_project.ensure_project_exists].
    rewrite run_bind; fold E; rewrite HE; cbn.
    rewrite app_nil_r; reflexivity.
  - intros pn project description enabled cm changed E HE.
    unfold os_project.main, shade.openstack_cloud, call.
    rewrite run_try; cbn -[os_project.ensure_project_absent].
    rewrite H; cbn -[os_project.ensure_project_absent].
    rewrite run_bind; fold E; rewrite HE; cbn.
    rewrite app_nil_r; reflexivity.
  - intros name email project password enabled st cm changed E Hst HE.
    unfold os_user.main, shade.openstack_cloud, call.
    rewrite run_try; cbn -[os_user.ensure_user_absent String.eqb].
    rewrite H; cbn -[os_user.ensure_user_absent String.eqb].
    rewrite Hst.
    rewrite run_bind; fold E; rewrite HE; cbn.
    rewrite app_nil_r; reflexivity.
Qed.

Lemma mains_report_convergence_witness :
  run RefCloud.backend
      (os_project.main os_project.module_project_name
                       (demo_module "present" false)) demo_cloud
  = mkRun [openstack_cloud; cloud_get_project "demo"]
          (inr (SystemExit false
                  [("changed", JBool false);
                   ("project",
                    JProject (Project.mk "p1" "demo"
                                         (Some "Default Tenant") true))]))
          demo_cloud.
Proof.
  apply (proj1 (@mains_report_convergence RefCloud.backend demo_cloud
                  demo_cloud eq_refl)
               os_project.module_project_name "demo"
               (Some "Default Tenant") true false false
               (Some (Project.mk "p1" "demo" (Some "Default Tenant") true))).
  reflexivity.
Defined.

(** ** Converging again, on the reference cloud *)

Lemma filter_negb_filter A (f : A -> bool) l :
  filter f (filter (fun x => negb (f x)) l) = [].
Proof.
  induction l as [| a l IH]; simpl; [reflexivity |].
  destruct (f a) eqn:E; simpl; [exact IH |].
  rewrite E; exact IH.
Qed.

Lemma lookup_removed A (id name : A -> string) l n :
  RefCloud.lookup id name
    (filter (fun x => negb (RefCloud.matches id name n x)) l) n
  = Reply None.
Proof.
  unfold RefCloud.lookup; rewrite filter_negb_filter; reflexivity.
Qed.

(** X20.  On the reference cloud, when the lookup finds a router, removing
    it twice through the Router module reports changed=True ("Deleted")
    and then changed=False ("Success"), and the second call leaves the
    cloud as the first left it. *)
Theorem router_absent_twice (c : RefCloud.t) (name : string)
        (admin_state_up check_mode : bool) (r : Router.t) :
  fst (RefCloud.handle (cloud_get_router name) c) = Reply (Some r) ->
  let p := os_router.main
             (mkModule (os_router.mkParams name admin_state_up "absent")
                       check_mode) in
  let R1 := run RefCloud.backend p c in
  let R2 := run RefCloud.backend p (final R1) in
  outcome R1 = inr (SystemExit false
                      [("changed", JBool true); ("result", JStr "Deleted")])
  /\ outcome R2 = inr (SystemExit false
                         [("changed", JBool false);
                          ("result", JStr "Success")])
  /\ final R2 = final R1.
Proof.
  intros H; cbn -[RefCloud.lookup] in H.
  unfold os_router.main, shade.openstack_cloud, cloud.get_router,
    cloud.delete_router.
  cbn -[RefCloud.lookup]; rewrite H.
  cbn -[RefCloud.lookup].
  rewrite lookup_removed.
  repeat split.
Qed.

Lemma router_absent_twice_witness :
  let p := os_router.main (router1_module true "absent" false) in
  let R1 := run RefCloud.backend p demo_cloud in
  let R2 := run RefCloud.backend p (final R1) in
  outcome R1 = inr (SystemExit false
                      [("changed", JBool true); ("result", JStr "Deleted")])
  /\ outcome R2 = inr (SystemExit false
                         [("changed", JBool false);
                          ("result", JStr "Success")])
  /\ final R2 = final R1.
Proof.
  apply (@router_absent_twice demo_cloud "router1" true false
           (Router.mk "n1" "router1" false)).
  reflexivity.
Defined.

Section RefLookupMore.
Variable A : Type.
Variables id name : A -> string.

Lemma lookup_some l n x :
  RefCloud.lookup id name l n = Reply (Some x) ->
  filter (RefCloud.matches id name n) l = [x].
Proof.
  unfold RefCloud.lookup.
  destruct (filter _ l) as [| a [| b t]]; intros H;
    try discriminate; congruence.
Qed.

Lemma filter_map_same (f : A -> bool) (g : A -> A) l :
  (forall y, f (g y) = f y) ->
  filter f (map g l) = map g (filter f l).
Proof.
  intros Hg; induction l as [| a l IH]; simpl; [reflexivity |].
  rewrite Hg; destruct (f a); simpl; rewrite IH; reflexivity.
Qed.

Lemma lookup_updated (g : A -> A) l n x :
  (forall y, id (g y) = id y) -> (forall y, name (g y) = name y) ->
  RefCloud.lookup id name l n = Reply (Some x) ->
  RefCloud.lookup id name (map g l) n = Reply (Some (g x)).
Proof.
  intros Hi Hn H; apply lookup_some in H.
  unfold RefCloud.lookup.
  rewrite filter_map_same, H; [reflexivity |].
  intros y; unfold RefCloud.matches; rewrite Hi, Hn; reflexivity.
Qed.
End RefLookupMore.

(** X21.  On the reference cloud, the Project convergence settles after
    one call: whenever [ensure_project_exists] returns a project outside
    check mode, whether it created it, updated it or found it conforming,
    the same call made again returns changed=False with a project of the
    same id. *)
Theorem project_settles_after_one_call (c : RefCloud.t) (name : string)
        (description : option string) (enabled changed : bool)
        (x : Project.t) :
  let p := os_project.ensure_project_exists name description enabled false in
  outcome (run RefCloud.backend p c) = inl (changed, Some x) ->
  exists x',
    outcome (run RefCloud.backend p (final (run RefCloud.backend p c)))
    = inl (false, Some x')
    /\ Project.id x' = Project.id x.
Proof.
  cbv zeta.
  unfold os_project.ensure_project_exists, cloud.get_project,
    cloud.create_project, cloud.update_project.
  cbn -[RefCloud.lookup RefCloud.fresh].
  destruct (RefCloud.lookup Project.id Project.name (RefCloud.projects c)
              name) as [m e | [q |]] eqn:L;
    cbn -[RefCloud.lookup RefCloud.fresh].
  - discriminate.
  - destruct (negb (opt_eqb (Project.description q) description)
              || negb (eqb (Project.enabled q) enabled)) eqn:D;
      cbn -[RefCloud.lookup RefCloud.fresh].
    + destruct (find (fun y => Project.id y =? Project.id q)
                     (RefCloud.projects c)) as [q' |] eqn:F;
        cbn -[RefCloud.lookup RefCloud.fresh]; [| discriminate].
      intros Hx; injection Hx as _ <-.
      rewrite (@lookup_updated _ Project.id Project.name
                 (fun y => if Project.id y =? Project.id q
                           then Project.mk (Project.id y) (Project.name y)
                                           description enabled
                           else y)
                 (RefCloud.projects c) name q).
      * rewrite String.eqb_refl; cbn.
        rewrite opt_eqb_refl, Bool.eqb_reflx; cbn.
        eexists; split; [reflexivity |]; cbn.
        apply find_some in F; destruct F as [_ F].
        apply String.eqb_eq in F; congruence.
      * intros y; destruct (Project.id y =? Project.id q); reflexivity.
      * intros y; destruct (Project.id y =? Project.id q); reflexivity.
      * exact L.
    + intros Hx; injection Hx as _ <-.
      rewrite L; cbn; rewrite D; cbn.
      eexists; split; reflexivity.
  - intros Hx; injection Hx as _ <-.
    rewrite (@lookup_created _ Project.id Project.name (RefCloud.projects c)
               (Project.mk (RefCloud.fresh c) name description enabled)
               name eq_refl (lookup_none _ _ _ _ L)).
    cbn; rewrite opt_eqb_refl, Bool.eqb_reflx; cbn.
    eexists; split; reflexivity.
Qed.

Lemma project_settles_after_one_call_witness :
  let p := os_project.ensure_project_exists "demo" None false false in
  exists x',
    outcome (run RefCloud.backend p
               (final (run RefCloud.backend p demo_cloud)))
    = inl (false, Some x')
    /\ Project.id x' = "p1".
Proof.
  apply (@project_settles_after_one_call demo_cloud "demo" None false true
           (Project.mk "p1" "demo" None false)).
  reflexivity.
Defined.

(** ** What [ensure_project_exists] and [ensure_user_exists] compare and
       send *)

(** X22.  In check mode, [ensure_project_exists] and the
    [ensure_user_exists] of os_user.py return the resource exactly as the
    lookup replied it (None when there is none), and changed is False
    exactly when a resource was found whose two managed attributes
    (description and enabled; email and enabled) equal the desired
    ones. *)
Theorem check_mode_reports_observed (B : Backend) (s s1 : state B)
        (name : string) :
  (forall description enabled (o : option Project.t),
      handle B (cloud_get_project name) s = (Reply o, s1) ->
      exists changed,
        run B (os_project.ensure_project_exists name description enabled
                                                true) s
        = mkRun [cloud_get_project name] (inl (changed, o)) s1
        /\ (changed = false
            <-> exists p, o = Some p
                          /\ Project.description p = description
                          /\ Project.enabled p = enabled))
  /\ (forall password email project enabled (o : option User.t),
         handle B (cloud_get_user name) s = (Reply o, s1) ->
         exists changed,
           run B (os_user.ensure_user_exists name password email project
                                             enabled true) s
           = mkRun [cloud_get_user name] (inl (changed, o)) s1
           /\ (changed = false
               <-> exists u, o = Some u
                             /\ User.email u = email
                             /\ User.enabled u = enabled)).
Proof.
  split.
  - intros description enabled o H.
    unfold os_project.ensure_project_exists, cloud.get_project; cbn.
    rewrite H; cbn.
    destruct o as [p |]; cbn.
    + destruct (opt_eqb (Project.description p) description) eqn:Ed;
        destruct (eqb (Project.enabled p) enabled) eqn:Ee; cbn;
        eexists; (split; [reflexivity |]); split.
      all: try (intros Hc;
                first [ discriminate Hc
                      | exists p; repeat split;
                        [ apply opt_eqb_eq; exact Ed
                        | apply Bool.eqb_prop; exact Ee ] ]).
      all: intros (p' & Hp & Hd & He); injection Hp as <-; subst;
        rewrite ?opt_eqb_refl, ?Bool.eqb_reflx in *;
        first [reflexivity | discriminate].
    + exists true; split; [reflexivity |].
      split; [discriminate |].
      intros (p & Hp & _); discriminate.
  - intros password email project enabled o H.
    unfold os_user.ensure_user_exists, cloud.get_user; cbn.
    rewrite H; cbn.
    destruct o as [u |]; cbn.
    + destruct (eqb (User.enabled u) enabled) eqn:Ee;
        destruct (opt_eqb (User.email u) email) eqn:Em; cbn;
        eexists; (split; [reflexivity |]); split.
      all: try (intros Hc;
                first [ discriminate Hc
                      | exists u; repeat split;
                        [ apply opt_eqb_eq; exact Em
                        | apply Bool.eqb_prop; exact Ee ] ]).
      all: intros (u' & Hu & Hm & He); injection Hu as <-; subst;
        rewrite ?opt_eqb_refl, ?Bool.eqb_reflx in *;
        first [reflexivity | discriminate].
    + exists true; split; [reflexivity |].
      split; [discriminate |].
      intros (u & Hu & _); discriminate.
Qed.

Lemma check_mode_reports_observed_witness :
  exists changed,
    run RefCloud.backend
        (os_project.ensure_project_exists "demo" None true true) demo_cloud
    = mkRun [cloud_get_project "demo"]
            (inl (changed,
                  Some (Project.mk "p1" "demo" (Some "Default Tenant")
                                   true))) demo_cloud
    /\ (changed = false
        <-> exists p,
            Some (Project.mk "p1" "demo" (Some "Default Tenant") true)
            = Some p
            /\ Project.description p = None
            /\ Project.enabled p = true).
Proof.
  apply (proj1 (@check_mode_reports_observed RefCloud.backend demo_cloud
                  demo_cloud "demo")
               None true
               (Some (Project.mk "p1" "demo" (Some "Default Tenant") true))).
  reflexivity.
Defined.

(** X23.  [ensure_project_exists] issues a mutating call only outside
    check mode, and that call is either create_project with the desired
    name, description and enabled, when the lookup found nothing, or
    update_project on the id of the project found with the desired
    description and enabled: it never deletes and never touches another
    project. *)
Theorem project_mutations_carry_desired (B : Backend) (s : state B)
        (name : string) (description : option string)
        (enabled check_mode : bool) (c : cmd) :
  In c (trace (run B (os_project.ensure_project_exists
                        name description enabled check_mode) s)) ->
  mutating c = true ->
  check_mode = false
  /\ ((fst (handle B (cloud_get_project name) s) = Reply None
       /\ c = cloud_create_project name description enabled)
      \/ exists p,
          fst (handle B (cloud_get_project name) s) = Reply (Some p)
          /\ c = cloud_update_project (Project.id p) description enabled).
Proof.
  unfold os_project.ensure_project_exists, cloud.get_project,
    cloud.update_project, cloud.create_project; cbn.
  destruct (handle B (cloud_get_project name) s) as [[m x | [p |]] s1]; cbn.
  - intros [<- | []]; discriminate.
  - destruct (negb (opt_eqb (Project.description p) description)
              || negb (eqb (Project.enabled p) enabled)); cbn.
    + destruct check_mode; cbn.
      * intros [<- | []]; discriminate.
      * destruct (handle B (cloud_update_project (Project.id p) description
                                                 enabled) s1)
          as [[m x | v] s2]; cbn;
          (intros [<- | [<- | []]]; [discriminate | eauto]).
    + intros [<- | []]; discriminate.
  - destruct check_mode; cbn.
    + intros [<- | []]; discriminate.
    + destruct (handle B (cloud_create_project name description enabled) s1)
        as [[m x | v] s2]; cbn;
        (intros [<- | [<- | []]]; [discriminate | eauto]).
Qed.

Lemma project_mutations_carry_desired_witness :
  false = false
  /\ ((fst (handle RefCloud.backend (cloud_get_project "demo")
                   RefCloud.empty) = Reply None
       /\ cloud_create_project "demo" None true
          = cloud_create_project "demo" None true)
      \/ exists p,
          fst (handle RefCloud.backend (cloud_get_project "demo")
                      RefCloud.empty) = Reply (Some p)
          /\ cloud_create_project "demo" None true
             = cloud_update_project (Project.id p) None true).
Proof.
  apply (@project_mutations_carry_desired RefCloud.backend RefCloud.empty
           "demo" None true false (cloud_create_project "demo" None true)).
  - right; left; reflexivity.
  - reflexivity.
Defined.

(** X24.  A desired attribute that is omitted (None) is not skipped by the
    comparison: against a project that has a description, an omitted
    description makes [ensure_project_exists] update the project with
    description None; against a user that has an email, an omitted email
    makes the [ensure_user_exists] of os_user.py update the user with
    email None. *)
Theorem omitted_attribute_is_enforced (B : Backend) (s s1 : state B)
        (name : string) (enabled : bool) :
  (forall (p : Project.t) d,
      handle B (cloud_get_project name) s = (Reply (Some p), s1) ->
      Project.description p = Some d ->
      trace (run B (os_project.ensure_project_exists name None enabled
                                                     false) s)
      = [cloud_get_project name;
         cloud_update_project (Project.id p) None enabled])
  /\ (forall (u : User.t) e password project,
         handle B (cloud_get_user name) s = (Reply (Some u), s1) ->
         User.email u = Some e ->
         trace (run B (os_user.ensure_user_exists name password None project
                                                  enabled false) s)
         = [cloud_get_user name;
            cloud_update_user (User.id u) None enabled]).
Proof.
  split.
  - intros p d H Hd.
    unfold os_project.ensure_project_exists, cloud.get_project,
      cloud.update_project; cbn.
    rewrite H; cbn; rewrite Hd; cbn.
    destruct (handle B (cloud_update_project (Project.id p) None enabled)
                s1) as [[m x | v] s2]; reflexivity.
  - intros u e password project H He.
    unfold os_user.ensure_user_exists, cloud.get_user, cloud.update_user;
      cbn.
    rewrite H; cbn; rewrite He; cbn.
    rewrite andb_false_r; cbn.
    destruct (handle B (cloud_update_user (User.id u) None enabled) s1)
      as [[m x | v] s2]; reflexivity.
Qed.

Lemma omitted_attribute_is_enforced_witness :
  trace (run RefCloud.backend
           (os_project.ensure_project_exists "demo" None true false)
           demo_cloud)
  = [cloud_get_project "demo"; cloud_update_project "p1" None true].
Proof.
  apply (proj1 (@omitted_attribute_is_enforced RefCloud.backend demo_cloud
                  demo_cloud "demo" true)
               (Project.mk "p1" "demo" (Some "Default Tenant") true)
               "Default Tenant");
    reflexivity.
Defined.

(** X25.  As the file stands, with no [project_name] bound at module
    level, the [main] of os_project.py never removes a project: for state
    absent it opens the session and issues no other call, ending with
    NameError when the session opens and with the report or failure of
    the [except] clause when it does not. *)
Theorem project_main_absent_as_written (B : Backend) (s : state B)
        (project : string) (description : option string)
        (enabled check_mode : bool) :
  let R := run B (os_project.main
                    os_project.module_project_name
                    (mkModule (os_project.mkParams project description
                                                   "absent" enabled)
                              check_mode)) s in
  trace R = [openstack_cloud]
  /\ (outcome R = inr (NameError "project_name")
      \/ exists m x, outcome R = inr (lenient check_mode m x)).
Proof.
  cbv zeta.
  unfold os_project.main, os_project.ensure_project_absent,
    os_project.module_project_name, shade.openstack_cloud, lenient; cbn.
  destruct (handle B openstack_cloud s) as [[m x | []] s1], check_mode; cbn;
    (split; [reflexivity |]); eauto.
Qed.

Lemma user_absent_never_deletes_user_witness :
  exists u,
    fst (handle RefCloud.backend (cloud_get_user "john") demo_cloud)
    = Reply (Some u)
    /\ cloud_delete_project "u1" = cloud_delete_project (User.id u).
Proof.
  apply (proj1 user_absent_never_deletes_user RefCloud.backend demo_cloud
               "john" false (cloud_delete_project "u1")).
  - right; left; reflexivity.
  - reflexivity.
Defined.
